(** * Technical-analysis strategies: signal fusion and analysis reports

    A shallow embedding of [src/strategies/ema_strategy.py] and
    [src/strategies/rsi_strategy.py].  Both strategies are LangGraph nodes:
    [__call__] receives the shared [AgentState], walks tickers x intervals,
    asks four indicator functions for a signal each, fuses them with
    [weighted_signal_combination], assembles a nested report and stores it in
    the shared state.

    Conventions of the embedding:
    - a Python [dict] used as a map is a [gmap string _]; the dict handed to
      [weighted_signal_combination] keeps its insertion order (a list of
      pairs), because the fusion iterates over it;
    - a Python [float] is the rational it denotes ([Qc]); NaN and the
      infinities are not values of the embedding.  The product of two floats
      is the exact product rounded to the nearest binary64 number
      ([float_mul]); the fusion, which is modelled from the specification,
      computes with exact sums and quotients, as the specification has it;
    - an exception is a value of [Exn]; code that may raise returns a
      [Result];
    - calls into the [indicators] package and the diagnostic printer are
      recorded in an event log, so that "how often was it called" is a
      statement about a list;
    - [state['data']] is one dict holding values of several kinds; the
      strategies expect a list of ticker names under ["tickers"] and a list
      of [Interval] members under ["intervals"], and the embedding stops with
      [TypeError] on a value of another kind there. *)

From Stdlib Require Import ZArith QArith Qcanon Qcabs Lia Permutation.
From Stdlib Require Import Floats.PrimFloat Floats.SpecFloat Floats.FloatOps.
From Stdlib Require Import Uint63.
From stdpp Require Import gmap strings list fin_maps.

Local Open Scope string_scope.
Local Open Scope list_scope.
Local Set Warnings "-register-all,-clear-no-such-hyp,-inexact-float".

(** ** Exceptions and results *)

Inductive Exn : Type :=
| KeyError (key : string)
| TypeError
| ConfigurationError
| AdapterFault (what : string).

Inductive Result (A : Type) : Type :=
| Ok (a : A)
| Raise (e : Exn).
Arguments Ok {A} a.
Arguments Raise {A} e.

Definition is_ok {A} (r : Result A) : bool :=
  match r with Ok _ => true | Raise _ => false end.

Definition ok_or {A} (d : A) (r : Result A) : A :=
  match r with Ok a => a | Raise _ => d end.

(** ** Rationals with boolean tests *)

Definition Qc_ltb (x y : Qc) : bool :=
  (Qnum x * QDen y <? Qnum y * QDen x)%Z.

Definition Qc_is_zero (x : Qc) : bool := (Qnum x =? 0)%Z.

Definition qc (n : Z) (d : positive) : Qc := Q2Qc (n # d).

(** Rounding [n / d] to the nearest integer, a tie going to the even
    neighbour. *)
Definition round_half_even (n d : Z) : Z :=
  let fl := (n / d)%Z in
  let r2 := (2 * (n mod d))%Z in
  if (r2 <? d)%Z then fl
  else if (d <? r2)%Z then (fl + 1)%Z
  else if Z.even fl then fl else (fl + 1)%Z.

(** Python's [round(x)] with one argument. *)
Definition py_round (x : Qc) : Z := round_half_even (Qnum x) (QDen x).

(** ** Binary64 arithmetic *)

(** [2^e <= n / d], for positive [n] and [d]. *)
Definition pow2_le (e n d : Z) : bool :=
  if (0 <=? e)%Z then (2 ^ e * d <=? n)%Z else (d <=? n * 2 ^ (- e))%Z.

(** The binade of a positive [n / d]: the [e] with
    [2^e <= n / d < 2^(e+1)]. *)
Definition binade (n d : Z) : Z :=
  let e := (Z.log2 n - Z.log2 d)%Z in
  if pow2_le e n d then e else (e - 1)%Z.

(** The exponent of the last place of the binary64 numbers around [n / d]:
    53 significant bits, and no exponent below -1074 (the subnormal
    numbers). *)
Definition ulp_exponent (n d : Z) : Z :=
  Z.max (binade (Z.abs n) d - 52) (-1074).

(** The binary64 number nearest to [x], a tie going to the even
    significand: what an operation on floats returns for the exact result
    [x] (IEEE 754, round to nearest even).  Results of magnitude [2^1024]
    and more, which overflow to an infinity, are outside the embedding. *)
Definition round_binary64 (x : Qc) : Qc :=
  let q := ulp_exponent (Qnum x) (QDen x) in
  if (0 <=? q)%Z
  then Qc_of_Z (round_half_even (Qnum x) (QDen x * 2 ^ q) * 2 ^ q)
  else Q2Qc (round_half_even (Qnum x * 2 ^ (- q)) (QDen x) # Z.to_pos (2 ^ (- q))).

(** [x * y] on floats. *)
Definition float_mul (x y : Qc) : Qc := round_binary64 (x * y).

(** The float a decimal literal denotes: [double 995 1000] is [0.995]. *)
Definition double (n : Z) (d : positive) : Qc := round_binary64 (qc n d).

(** The value of a float of the kernel, for comparing [round_binary64] with
    the binary64 arithmetic of Rocq itself. *)
Definition SF2Qc (f : spec_float) : option Qc :=
  match f with
  | S754_zero _ => Some 0%Qc
  | S754_finite s m e =>
      let z := if s then Z.neg m else Z.pos m in
      Some (if (0 <=? e)%Z then Qc_of_Z (z * 2 ^ e)
            else Q2Qc (z # Z.to_pos (2 ^ (- e))))
  | S754_infinity _ | S754_nan => None
  end.

Definition float_value (f : float) : option Qc := SF2Qc (Prim2SF f).

(** The float [k / 1000] of the kernel. *)
Definition decimal3 (k : Z) : float :=
  (of_uint63 (Uint63.of_Z k) / 1000)%float.

(** The float [k / 1000] of the kernel is [double k 1000]. *)
Definition double_agrees (k : Z) : bool :=
  match float_value (decimal3 k) with
  | Some c => Qeq_bool c (double k 1000)
  | None => false
  end.

(** The product of two floats of the kernel has the value [float_mul] gives
    for the values of the factors. *)
Definition float_mul_agrees (x y : float) : bool :=
  match float_value x, float_value y, float_value (x * y)%float with
  | Some a, Some b, Some p => Qeq_bool (float_mul a b) p
  | _, _, _ => false
  end.

(** ** Signals *)

Inductive SignalDirection : Type := bullish | bearish | neutral.

Definition direction_name (d : SignalDirection) : string :=
  match d with
  | bullish => "bullish"
  | bearish => "bearish"
  | neutral => "neutral"
  end.

(** What an indicator function returns: the dict
    [{"signal": ..., "confidence": ..., "metrics": ...}].  [M] is the type of
    the raw metrics. *)
Record SignalTriple (M : Type) : Type := mkTriple {
  signal : SignalDirection;
  confidence : Qc;
  metrics : M
}.
Arguments mkTriple {M} _ _ _.
Arguments signal {M} _.
Arguments confidence {M} _.
Arguments metrics {M} _.

Record ConsensusResult : Type := mkConsensus {
  consensus_signal : SignalDirection;
  consensus_confidence : Qc
}.

(** ** The fusion engine *)

Module Fusion.

Definition sign (d : SignalDirection) : Qc :=
  match d with
  | bullish => 1
  | bearish => - 1
  | neutral => 0
  end%Qc.

Section Engine.
Context {M : Type}.

(** A label missing from the profile weighs nothing. *)
Definition weight_of (weights : gmap string Qc) (label : string) : Qc :=
  default 0%Qc (weights !! label).

(** The weight a label is used with: only strictly positive weights
    count. *)
Definition used_weight (weights : gmap string Qc) (label : string) : Qc :=
  let w := weight_of weights label in
  if Qc_ltb 0 w then w else 0%Qc.

Definition contribution (weights : gmap string Qc)
    (entry : string * SignalTriple M) : Qc :=
  (used_weight weights entry.1 * confidence entry.2 * sign (signal entry.2))%Qc.

Fixpoint weighted_sum (weights : gmap string Qc)
    (signals : list (string * SignalTriple M)) : Qc :=
  match signals with
  | [] => 0%Qc
  | entry :: rest => (contribution weights entry + weighted_sum weights rest)%Qc
  end.

Fixpoint total_weight (weights : gmap string Qc)
    (signals : list (string * SignalTriple M)) : Qc :=
  match signals with
  | [] => 0%Qc
  | entry :: rest => (used_weight weights entry.1 + total_weight weights rest)%Qc
  end.

Definition decide_direction (epsilon S : Qc) : SignalDirection :=
  if Qc_ltb epsilon S then bullish
  else if Qc_ltb S (- epsilon)%Qc then bearish
  else neutral.

Definition clamp01 (x : Qc) : Qc :=
  if Qc_ltb x 0 then 0%Qc else if Qc_ltb 1 x then 1%Qc else x.

(** Modelled from the spec: the body of [weighted_signal_combination]
    lives in the [indicators] package, which is not part of the sources at
    hand.  Section 4.1 of the specification fixes it: signed contributions
    [w * confidence * sign] of the labels with [w > 0], normalised by the
    weight [W] actually used; [ConfigurationError] when [W = 0]; direction
    by the sign of the score against a threshold [epsilon]; confidence
    [|S|] clamped to [0, 1]. *)
Definition fuse (epsilon : Qc) (signals : list (string * SignalTriple M))
    (weights : gmap string Qc) : Result ConsensusResult :=
  let W := total_weight weights signals in
  if Qc_is_zero W then Raise ConfigurationError
  else
    let S := (weighted_sum weights signals / W)%Qc in
    Ok {| consensus_signal := decide_direction epsilon S;
          consensus_confidence := clamp01 (Qcabs S) |}.

(** The two strategies call the function with its two positional
    arguments only, hence with the default threshold [0]. *)
Definition weighted_signal_combination
    (signals : list (string * SignalTriple M))
    (weights : gmap string Qc) : Result ConsensusResult :=
  fuse 0%Qc signals weights.

End Engine.

(** The profile with every weight multiplied by [c]. *)
Definition scale_weights (c : Qc) (weights : gmap string Qc) : gmap string Qc :=
  Qcmult c <$> weights.

End Fusion.

(** ** JSON-like values: what a report is made of *)

Inductive Json : Type :=
| JStr (s : string)
| JInt (n : Z)
| JFloat (x : Qc)
| JList (items : list Json)
| JDict (fields : gmap string Json).

(** A dict display [{k1: v1, ..., kn: vn}] with distinct keys, as are all
    the displays of the strategies. *)
Definition dict_literal (fields : list (string * Json)) : gmap string Json :=
  list_to_map fields.

(** ** The shared agent state *)

(** [Interval] is an enum of the [utils] package; the strategies only read
    the [.value] of a member. *)
Record Interval : Type := mkInterval { value : string }.

(** The kinds of value the strategies meet in [state['data']]. *)
Inductive DataVal (DataFrame : Type) : Type :=
| DStr (s : string)
| DTickers (tickers : list string)
| DIntervals (intervals : list Interval)
| DFrame (df : DataFrame)
| DSignals (signals : gmap string Json).
Arguments DStr {DataFrame} s.
Arguments DTickers {DataFrame} tickers.
Arguments DIntervals {DataFrame} intervals.
Arguments DFrame {DataFrame} df.
Arguments DSignals {DataFrame} signals.

Record HumanMessage : Type := mkMessage {
  content : string;
  name : string
}.

Record AgentState (DataFrame : Type) : Type := mkState {
  st_messages : list HumanMessage;
  st_data : gmap string (DataVal DataFrame);
  st_metadata : gmap string bool
}.
Arguments mkState {DataFrame} _ _ _.
Arguments st_messages {DataFrame} _.
Arguments st_data {DataFrame} _.
Arguments st_metadata {DataFrame} _.

(** [state['data'] = ...] on the shared state object. *)
Definition with_data {DataFrame} (state : AgentState DataFrame)
    (data : gmap string (DataVal DataFrame)) : AgentState DataFrame :=
  {| st_messages := st_messages state;
     st_data := data;
     st_metadata := st_metadata state |}.

(** What [__call__] returns: [{"messages": [...], "data": data}]. *)
Record Output (DataFrame : Type) : Type := mkOutput {
  out_messages : list HumanMessage;
  out_data : gmap string (DataVal DataFrame)
}.
Arguments mkOutput {DataFrame} _ _.
Arguments out_messages {DataFrame} _.
Arguments out_data {DataFrame} _.

(** ** Observable calls *)

Inductive Adapter : Type :=
| Trend | Momentum | MeanReversion | Volatility | StatArb.

Global Instance Adapter_eq_dec : EqDecision Adapter.
Proof. solve_decision. Defined.

Inductive Event (DataFrame : Type) : Type :=
| Invoked (adapter : Adapter) (df : DataVal DataFrame)
| Shown (report : Json) (title : string).
Arguments Invoked {DataFrame} adapter df.
Arguments Shown {DataFrame} report title.

(** A computation that may raise and that logs its calls. *)
Definition Traced (E A : Type) : Type := list E * Result A.

Definition ret {E A} (a : A) : Traced E A := ([], Ok a).

Definition lift {E A} (r : Result A) : Traced E A := ([], r).

Definition bind {E A B} (m : Traced E A) (k : A -> Traced E B) : Traced E B :=
  match m.2 with
  | Ok a => (m.1 ++ (k a).1, (k a).2)
  | Raise e => (m.1, Raise e)
  end.

Notation "'let!' x ':=' m 'in' k" := (bind m (fun x => k))
  (at level 10, x name, m at level 100, k at level 200,
   format "'let!'  x  ':='  m  'in'  '//' k").

Fixpoint for_each {E A S} (xs : list A) (body : A -> S -> Traced E S) (s : S)
    : Traced E S :=
  match xs with
  | [] => ret s
  | x :: rest => let! s' := body x s in for_each rest body s'
  end.

(** [report[ticker][key] = record]: the outer subscript raises [KeyError]
    on an unknown ticker, the item assignment needs a dict. *)
Definition set_item2 (report : gmap string Json) (ticker key : string)
    (record : Json) : Result (gmap string Json) :=
  match report !! ticker with
  | None => Raise (KeyError ticker)
  | Some (JDict inner) => Ok (<[ticker := JDict (<[key := record]> inner)]> report)
  | Some _ => Raise TypeError
  end.

(** ** Collaborators

    The [indicators] package, [pandas] and [json] are not part of the
    strategies' sources; the strategies are verified against any
    implementation of this interface.  An indicator function receives
    whatever object [data.get] produced and either returns a triple or
    raises. *)

Class Collaborators (DataFrame RawMetrics : Type) : Type := {
  (** [pd.DataFrame()] *)
  empty_frame : DataFrame;
  calculate_trend_signals : DataVal DataFrame -> Result (SignalTriple RawMetrics);
  calculate_mean_reversion_signals : DataVal DataFrame -> Result (SignalTriple RawMetrics);
  calculate_momentum_signals : DataVal DataFrame -> Result (SignalTriple RawMetrics);
  calculate_volatility_signals : DataVal DataFrame -> Result (SignalTriple RawMetrics);
  calculate_stat_arb_signals : DataVal DataFrame -> Result (SignalTriple RawMetrics);
  normalize_pandas : RawMetrics -> Json;
  (** [json.dumps] *)
  json_dumps : Json -> string
}.

Section Strategies.
Context {DataFrame RawMetrics : Type} `{!Collaborators DataFrame RawMetrics}.

Abbreviation Data := (gmap string (DataVal DataFrame)) (only parsing).
Abbreviation Run := (Traced (Event DataFrame)) (only parsing).

Definition run_adapter (a : Adapter)
    : DataVal DataFrame -> Result (SignalTriple RawMetrics) :=
  match a with
  | Trend => calculate_trend_signals
  | Momentum => calculate_momentum_signals
  | MeanReversion => calculate_mean_reversion_signals
  | Volatility => calculate_volatility_signals
  | StatArb => calculate_stat_arb_signals
  end.

(** One call of an indicator function, logged. *)
Definition invoke (a : Adapter) (df : DataVal DataFrame)
    : Run (SignalTriple RawMetrics) :=
  ([Invoked a df], run_adapter a df).

(** [data.get("tickers", [])]; the state contract makes the entry a list
    of ticker names, another kind of value stops the model. *)
Definition get_tickers (data : Data) : Result (list string) :=
  match data !! "tickers" with
  | None => Ok []
  | Some (DTickers tickers) => Ok tickers
  | Some _ => Raise TypeError
  end.

(** [data.get("intervals", [])] *)
Definition get_intervals (data : Data) : Result (list Interval) :=
  match data !! "intervals" with
  | None => Ok []
  | Some (DIntervals intervals) => Ok intervals
  | Some _ => Raise TypeError
  end.

(** [data.get(f"{ticker}_{interval.value}", pd.DataFrame())] *)
Definition get_frame (data : Data) (ticker : string) (interval : Interval)
    : DataVal DataFrame :=
  default (DFrame empty_frame) (data !! (ticker +:+ "_" +:+ value interval)).

(** [for ticker in tickers: analysis[ticker] = {}] *)
Definition init_analysis (tickers : list string) : gmap string Json :=
  foldl (fun analysis ticker => <[ticker := JDict ∅]> analysis) ∅ tickers.

(** The entry of one label in ["strategy_signals"]. *)
Definition label_detail (s : SignalTriple RawMetrics) : Json :=
  JDict (dict_literal
    [("signal", JStr (direction_name (signal s)));
     ("confidence", JInt (py_round (float_mul (confidence s) (Qc_of_Z 100))));
     ("metrics", normalize_pandas (metrics s))]).

(** *** EMAStrategy *)

(** [strategy_weights]: each weight is the float its literal denotes. *)
Definition EMA_strategy_weights : gmap string Qc :=
  list_to_map
    [("ema_crossovers", double 45 100);
     ("ema_slope", double 30 100);
     ("price_to_ema", double 15 100);
     ("multi_timeframe", double 5 100);
     ("ema_volatility", double 5 100)].

Definition ema_periods : Json :=
  JDict (dict_literal
    [("short", JList [JInt 3; JInt 5; JInt 8]);
     ("medium", JList [JInt 13; JInt 21; JInt 34]);
     ("long", JList [JInt 55; JInt 89; JInt 144])]).

(** The dict stored at [ema_analysis[ticker][interval.value]]. *)
Definition EMA_report_record (combined_signal : ConsensusResult)
    (trend_signals momentum_signals mean_reversion_signals volatility_signals
       : SignalTriple RawMetrics) : Json :=
  JDict (dict_literal
    [("signal", JStr (direction_name (consensus_signal combined_signal)));
     ("confidence",
      JInt (py_round (float_mul (consensus_confidence combined_signal) (Qc_of_Z 100))));
     ("ema_periods", ema_periods);
     ("strategy_signals", JDict (dict_literal
        [("ema_crossovers", label_detail trend_signals);
         ("ema_slope", label_detail momentum_signals);
         ("price_to_ema", label_detail mean_reversion_signals);
         ("multi_timeframe", label_detail trend_signals);
         ("ema_volatility", label_detail volatility_signals)]))]).

(** The body of the two nested loops up to the record that is stored. *)
Definition EMAStrategy_record (data : Data) (ticker : string)
    (interval : Interval) : Run Json :=
  let df := get_frame data ticker interval in
  let! trend_signals := invoke Trend df in
  let! momentum_signals := invoke Momentum df in
  let! mean_reversion_signals := invoke MeanReversion df in
  let! volatility_signals := invoke Volatility df in
  let! combined_signal :=
    lift (Fusion.weighted_signal_combination
            [("ema_crossovers", trend_signals);
             ("ema_slope", momentum_signals);
             ("price_to_ema", mean_reversion_signals);
             ("multi_timeframe", trend_signals);
             ("ema_volatility", volatility_signals)]
            EMA_strategy_weights) in
  ret (EMA_report_record combined_signal trend_signals momentum_signals
         mean_reversion_signals volatility_signals).

(** [ema_analysis] as it stands after the loops. *)
Definition EMAStrategy_analysis (data : Data) : Run (gmap string Json) :=
  let! tickers := lift (get_tickers data) in
  let! intervals := lift (get_intervals data) in
  let ema_analysis := init_analysis tickers in
  for_each tickers (fun ticker ema_analysis =>
    for_each intervals (fun interval ema_analysis =>
      let! record := EMAStrategy_record data ticker interval in
      lift (set_item2 ema_analysis ticker (value interval) record))
    ema_analysis)
  ema_analysis.

(** [EMAStrategy.__call__]: the state after the call, the log and the
    returned dict.  The shared state is returned also when the call raises:
    what was written before the exception stays written. *)
Definition EMAStrategy_call (state : AgentState DataFrame)
    : AgentState DataFrame * Run (Output DataFrame) :=
  let data := <["name" := DStr "EMAStrategy"]> (st_data state) in
  let state := with_data state data in
  match EMAStrategy_analysis data with
  | (events, Raise e) => (state, (events, Raise e))
  | (events, Ok ema_analysis) =>
    let message := {| content := json_dumps (JDict ema_analysis);
                      name := "technical_analyst_agent" |} in
    match (st_metadata state : gmap string bool) !! "show_reasoning" with
    | None => (state, (events, Raise (KeyError "show_reasoning")))
    | Some show_reasoning =>
      let events :=
        if (show_reasoning : bool)
        then events ++ [Shown (JDict ema_analysis) "EMA Analyst"]
        else events in
      match data !! "analyst_signals" with
      | None => (state, (events, Raise (KeyError "analyst_signals")))
      | Some (DSignals analyst_signals) =>
        let data :=
          <["analyst_signals" :=
              DSignals (<["technical_analyst_agent" := JDict ema_analysis]>
                          analyst_signals)]> data in
        (with_data state data,
         (events, Ok {| out_messages := [message]; out_data := data |}))
      | Some _ => (state, (events, Raise TypeError))
      end
    end
  end.

(** *** RSIStrategy *)

(** [strategy_weights] of the RSI strategy. *)
Definition RSI_strategy_weights : gmap string Qc :=
  list_to_map
    [("rsi_overbought_oversold", double 5 100);
     ("rsi_divergence", double 5 100);
     ("rsi_trend_strength", double 5 100);
     ("rsi_volatility", double 5 100);
     ("momentum", double 80 100)].

(** The dict stored at [rsi_analysis[ticker][interval.value]]. *)
Definition RSI_report_record (combined_signal : ConsensusResult)
    (trend_signals momentum_signals mean_reversion_signals volatility_signals
       : SignalTriple RawMetrics) : Json :=
  JDict (dict_literal
    [("signal", JStr (direction_name (consensus_signal combined_signal)));
     ("confidence",
      JInt (py_round (float_mul (consensus_confidence combined_signal) (Qc_of_Z 100))));
     ("strategy_signals", JDict (dict_literal
        [("rsi_overbought_oversold", label_detail mean_reversion_signals);
         ("rsi_divergence", label_detail trend_signals);
         ("rsi_trend_strength", label_detail momentum_signals);
         ("rsi_volatility", label_detail volatility_signals);
         ("momentum", label_detail momentum_signals)]))]).

Definition RSIStrategy_record (data : Data) (ticker : string)
    (interval : Interval) : Run Json :=
  let df := get_frame data ticker interval in
  let! trend_signals := invoke Trend df in
  let! momentum_signals := invoke Momentum df in
  let! mean_reversion_signals := invoke MeanReversion df in
  let! volatility_signals := invoke Volatility df in
  let! combined_signal :=
    lift (Fusion.weighted_signal_combination
            [("rsi_overbought_oversold", mean_reversion_signals);
             ("rsi_divergence", trend_signals);
             ("rsi_trend_strength", momentum_signals);
             ("rsi_volatility", volatility_signals);
             ("momentum", momentum_signals)]
            RSI_strategy_weights) in
  ret (RSI_report_record combined_signal trend_signals momentum_signals
         mean_reversion_signals volatility_signals).

Definition RSIStrategy_analysis (data : Data) : Run (gmap string Json) :=
  let! tickers := lift (get_tickers data) in
  let! intervals := lift (get_intervals data) in
  let rsi_analysis := init_analysis tickers in
  for_each tickers (fun ticker rsi_analysis =>
    for_each intervals (fun interval rsi_analysis =>
      let! record := RSIStrategy_record data ticker interval in
      lift (set_item2 rsi_analysis ticker (value interval) record))
    rsi_analysis)
  rsi_analysis.

Definition RSIStrategy_call (state : AgentState DataFrame)
    : AgentState DataFrame * Run (Output DataFrame) :=
  let data := <["name" := DStr "RSIStrategy"]> (st_data state) in
  let state := with_data state data in
  match RSIStrategy_analysis data with
  | (events, Raise e) => (state, (events, Raise e))
  | (events, Ok rsi_analysis) =>
    let message := {| content := json_dumps (JDict rsi_analysis);
                      name := "technical_analyst_agent" |} in
    match (st_metadata state : gmap string bool) !! "show_reasoning" with
    | None => (state, (events, Raise (KeyError "show_reasoning")))
    | Some show_reasoning =>
      let events :=
        if (show_reasoning : bool)
        then events ++ [Shown (JDict rsi_analysis) "RSI Analyst"]
        else events in
      match data !! "analyst_signals" with
      | None => (state, (events, Raise (KeyError "analyst_signals")))
      | Some (DSignals analyst_signals) =>
        let data :=
          <["analyst_signals" :=
              DSignals (<["technical_analyst_agent" := JDict rsi_analysis]>
                          analyst_signals)]> data in
        (with_data state data,
         (events, Ok {| out_messages := [message]; out_data := data |}))
      | Some _ => (state, (events, Raise TypeError))
      end
    end
  end.

(** *** The shape the two strategies share

    The two [__call__] bodies differ in the strategy name, the title handed
    to the printer and the record built for a pair.  The skeleton below is
    what remains; both strategies are instances of it
    ([EMAStrategy_call_shape], [RSIStrategy_call_shape]). *)

Definition pair_loops (record : string -> Interval -> Run Json)
    (tickers : list string) (intervals : list Interval)
    (analysis : gmap string Json) : Run (gmap string Json) :=
  for_each tickers (fun ticker analysis =>
    for_each intervals (fun interval analysis =>
      let! r := record ticker interval in
      lift (set_item2 analysis ticker (value interval) r))
    analysis)
  analysis.

Definition strategy_analysis (record : Data -> string -> Interval -> Run Json)
    (data : Data) : Run (gmap string Json) :=
  let! tickers := lift (get_tickers data) in
  let! intervals := lift (get_intervals data) in
  pair_loops (record data) tickers intervals (init_analysis tickers).

Definition strategy_call (strategy_name title : string)
    (record : Data -> string -> Interval -> Run Json)
    (state : AgentState DataFrame)
    : AgentState DataFrame * Run (Output DataFrame) :=
  let data := <["name" := DStr strategy_name]> (st_data state) in
  let state := with_data state data in
  match strategy_analysis record data with
  | (events, Raise e) => (state, (events, Raise e))
  | (events, Ok analysis) =>
    let message := {| content := json_dumps (JDict analysis);
                      name := "technical_analyst_agent" |} in
    match (st_metadata state : gmap string bool) !! "show_reasoning" with
    | None => (state, (events, Raise (KeyError "show_reasoning")))
    | Some show_reasoning =>
      let events :=
        if (show_reasoning : bool)
        then events ++ [Shown (JDict analysis) title]
        else events in
      match data !! "analyst_signals" with
      | None => (state, (events, Raise (KeyError "analyst_signals")))
      | Some (DSignals analyst_signals) =>
        let data :=
          <["analyst_signals" :=
              DSignals (<["technical_analyst_agent" := JDict analysis]>
                          analyst_signals)]> data in
        (with_data state data,
         (events, Ok {| out_messages := [message]; out_data := data |}))
      | Some _ => (state, (events, Raise TypeError))
      end
    end
  end.

(** The inner dict of one ticker once its intervals have been walked. *)
Definition fill (record : string -> Interval -> Run Json) (ticker : string)
    (intervals : list Interval) (inner : gmap string Json) : gmap string Json :=
  foldl (fun inner interval =>
           <[value interval := ok_or (JDict ∅) (record ticker interval).2]> inner)
        inner intervals.

(** The walk over the intervals of one ticker. *)
Definition inner_loop (record : string -> Interval -> Run Json)
    (ticker : string) (intervals : list Interval) (analysis : gmap string Json)
    : Run (gmap string Json) :=
  for_each intervals (fun interval analysis =>
    let! r := record ticker interval in
    lift (set_item2 analysis ticker (value interval) r))
  analysis.

(** The report while the outer loop runs: the tickers in [done] carry their
    filled dict, the others still the empty one. *)
Definition progress (record : string -> Interval -> Run Json)
    (tickers done : list string) (intervals : list Interval)
    (ticker : string) : option Json :=
  if decide (ticker ∈ tickers)
  then Some (JDict (if decide (ticker ∈ done)
                    then fill record ticker intervals ∅ else ∅))
  else None.

(** *** Either strategy *)

Inductive Strategy : Type := EMA | RSI.

Definition record_of (strategy : Strategy) : Data -> string -> Interval -> Run Json :=
  match strategy with
  | EMA => EMAStrategy_record
  | RSI => RSIStrategy_record
  end.

Definition analysis_of (strategy : Strategy) : Data -> Run (gmap string Json) :=
  match strategy with
  | EMA => EMAStrategy_analysis
  | RSI => RSIStrategy_analysis
  end.

Definition call (strategy : Strategy)
    : AgentState DataFrame -> AgentState DataFrame * Run (Output DataFrame) :=
  match strategy with
  | EMA => EMAStrategy_call
  | RSI => RSIStrategy_call
  end.

Definition strategy_name (strategy : Strategy) : string :=
  match strategy with
  | EMA => "EMAStrategy"
  | RSI => "RSIStrategy"
  end.

(** The title handed to [show_agent_reasoning]. *)
Definition strategy_title (strategy : Strategy) : string :=
  match strategy with
  | EMA => "EMA Analyst"
  | RSI => "RSI Analyst"
  end.

(** The four indicator functions a pair is run through, in call order. *)
Definition adapters_used : list Adapter :=
  [Trend; Momentum; MeanReversion; Volatility].

(** The calls one pair makes, on the frame [df]. *)
Definition pair_calls (df : DataVal DataFrame) : list (Event DataFrame) :=
  (fun a => Invoked a df) <$> adapters_used.

(** Every indicator function returns on every requested pair. *)
Definition adapters_return (data : Data) (tickers : list string)
    (intervals : list Interval) : Prop :=
  forall ticker interval a,
    ticker ∈ tickers -> interval ∈ intervals -> a ∈ adapters_used ->
    is_ok (run_adapter a (get_frame data ticker interval)) = true.

(** The report a completed run has built: one dict per ticker, filled with
    one record per interval label. *)
Definition report_built (strategy : Strategy) (data : Data)
    (tickers : list string) (intervals : list Interval)
    (report : gmap string Json) : Prop :=
  forall ticker,
    report !! ticker
    = if decide (ticker ∈ tickers)
      then Some (JDict (fill (record_of strategy data) ticker intervals ∅))
      else None.

(** [state['data']] once a call has completed. *)
Definition final_data (strategy : Strategy) (state : AgentState DataFrame)
    (analyst_signals report : gmap string Json) : gmap string (DataVal DataFrame) :=
  <["analyst_signals" :=
      DSignals (<["technical_analyst_agent" := JDict report]> analyst_signals)]>
    (<["name" := DStr (strategy_name strategy)]> (st_data state)).

(** [state['data']['analyst_signals']['technical_analyst_agent']] *)
Definition stored_report (state : AgentState DataFrame) : option Json :=
  match st_data state !! "analyst_signals" with
  | Some (DSignals analyst_signals) => analyst_signals !! "technical_analyst_agent"
  | _ => None
  end.

(** What either strategy hands to the fusion and what it stores. *)
Definition labelled_signals (strategy : Strategy)
    (trend_signals momentum_signals mean_reversion_signals volatility_signals
       : SignalTriple RawMetrics) : list (string * SignalTriple RawMetrics) :=
  match strategy with
  | EMA =>
      [("ema_crossovers", trend_signals);
       ("ema_slope", momentum_signals);
       ("price_to_ema", mean_reversion_signals);
       ("multi_timeframe", trend_signals);
       ("ema_volatility", volatility_signals)]
  | RSI =>
      [("rsi_overbought_oversold", mean_reversion_signals);
       ("rsi_divergence", trend_signals);
       ("rsi_trend_strength", momentum_signals);
       ("rsi_volatility", volatility_signals);
       ("momentum", momentum_signals)]
  end.

Definition strategy_weights (strategy : Strategy) : gmap string Qc :=
  match strategy with
  | EMA => EMA_strategy_weights
  | RSI => RSI_strategy_weights
  end.

Definition report_record (strategy : Strategy)
    : ConsensusResult -> SignalTriple RawMetrics -> SignalTriple RawMetrics ->
      SignalTriple RawMetrics -> SignalTriple RawMetrics -> Json :=
  match strategy with
  | EMA => EMA_report_record
  | RSI => RSI_report_record
  end.

(** *** Shapes of the report *)

(** One dict per requested ticker, one entry per requested interval label,
    nothing else. *)
Definition exact_keys (tickers : list string) (intervals : list Interval)
    (report : gmap string Json) : Prop :=
  dom report = list_to_set tickers
  /\ forall ticker, ticker ∈ tickers ->
       exists inner, report !! ticker = Some (JDict inner)
                     /\ dom inner = list_to_set (value <$> intervals).

(** The record of one requested pair. *)
Definition record_at (report : gmap string Json) (ticker : string)
    (interval : Interval) : option Json :=
  match report !! ticker with
  | Some (JDict inner) => inner !! value interval
  | _ => None
  end.

Definition is_direction (j : Json) : Prop :=
  exists d, j = JStr (direction_name d).

Definition is_percentage (j : Json) : Prop :=
  exists n, j = JInt n /\ (0 <= n <= 100)%Z.

Definition is_label_detail (j : Json) : Prop :=
  exists fields,
    j = JDict fields
    /\ dom fields = ({["signal"; "confidence"; "metrics"]} : gset string)
    /\ (exists v, fields !! "signal" = Some v /\ is_direction v)
    /\ (exists v, fields !! "confidence" = Some v /\ is_percentage v).

(** A record with a signal, a confidence, the per-label details and the
    fields [extra]. *)
Definition is_analysis_record (extra : gset string) (j : Json) : Prop :=
  exists fields details,
    j = JDict fields
    /\ dom fields = ({["signal"; "confidence"; "strategy_signals"]} : gset string) ∪ extra
    /\ (exists v, fields !! "signal" = Some v /\ is_direction v)
    /\ (exists v, fields !! "confidence" = Some v /\ is_percentage v)
    /\ fields !! "strategy_signals" = Some (JDict details)
    /\ forall label detail, details !! label = Some detail -> is_label_detail detail.

Definition extra_fields (strategy : Strategy) : gset string :=
  match strategy with
  | EMA => {["ema_periods"]}
  | RSI => ∅
  end.

(** The indicator functions hand back confidences in [0, 1]. *)
Definition adapters_in_range : Prop :=
  forall a df s, run_adapter a df = Ok s ->
    (0 <= confidence s)%Qc /\ (confidence s <= 1)%Qc.

(** How often the indicator function [a] was called in a log. *)
Definition invocations (a : Adapter) (events : list (Event DataFrame)) : nat :=
  length (List.filter (fun e => match e with
                                | Invoked a' _ => bool_decide (a' = a)
                                | Shown _ _ => false
                                end) events).

(** The indicator function behind each label, as the dict handed to
    [weighted_signal_combination] and the ["strategy_signals"] display pair
    them. *)
Definition label_adapters (strategy : Strategy) : list (string * Adapter) :=
  match strategy with
  | EMA =>
      [("ema_crossovers", Trend);
       ("ema_slope", Momentum);
       ("price_to_ema", MeanReversion);
       ("multi_timeframe", Trend);
       ("ema_volatility", Volatility)]
  | RSI =>
      [("rsi_overbought_oversold", MeanReversion);
       ("rsi_divergence", Trend);
       ("rsi_trend_strength", Momentum);
       ("rsi_volatility", Volatility);
       ("momentum", Momentum)]
  end.

(** The triple the indicator function [a] has returned for a pair, given
    the four triples of the pair. *)
Definition triple_of
    (trend_signals momentum_signals mean_reversion_signals volatility_signals
       : SignalTriple RawMetrics) (a : Adapter)
    : option (SignalTriple RawMetrics) :=
  match a with
  | Trend => Some trend_signals
  | Momentum => Some momentum_signals
  | MeanReversion => Some mean_reversion_signals
  | Volatility => Some volatility_signals
  | StatArb => None
  end.

(** The report a strategy computes on a state: one dict per ticker, one
    record per interval label, the record of a pair made from what the four
    indicator functions return on the frame of the pair and from their fusion
    under the weights of the strategy. *)
Definition computed_report (strategy : Strategy) (state : AgentState DataFrame)
    (tickers : list string) (intervals : list Interval)
    (report : gmap string Json) : Prop :=
  exact_keys tickers intervals report
  /\ forall ticker interval,
       ticker ∈ tickers -> interval ∈ intervals ->
       exists tr mo me vo combined,
         let df := get_frame (st_data state) ticker interval in
         run_adapter Trend df = Ok tr
         /\ run_adapter Momentum df = Ok mo
         /\ run_adapter MeanReversion df = Ok me
         /\ run_adapter Volatility df = Ok vo
         /\ Fusion.weighted_signal_combination
              (labelled_signals strategy tr mo me vo) (strategy_weights strategy)
            = Ok combined
         /\ record_at report ticker interval
            = Some (report_record strategy combined tr mo me vo).

(** [entry] holds the percentage of the confidence [c]: the integer
    [round(c * 100)], between 0 and 100 and at most one half away from the
    float [c * 100], which is itself within [2^-47] of the exact product. *)
Definition holds_percentage (c : Qc) (entry : option Json) : Prop :=
  exists n,
    entry = Some (JInt n)
    /\ n = py_round (float_mul c (Qc_of_Z 100))
    /\ (0 <= n <= 100)%Z
    /\ (float_mul c (Qc_of_Z 100) - qc 1 2 <= Qc_of_Z n)%Qc
    /\ (Qc_of_Z n <= float_mul c (Qc_of_Z 100) + qc 1 2)%Qc
    /\ (c * Qc_of_Z 100 - qc 1 (2 ^ 47) <= float_mul c (Qc_of_Z 100))%Qc
    /\ (float_mul c (Qc_of_Z 100) <= c * Qc_of_Z 100 + qc 1 (2 ^ 47))%Qc.

End Strategies.

(** ** A concrete set of collaborators

    Frames are lists of prices.  Each indicator answers neutral with zero
    confidence on the empty frame and a fixed signal otherwise. *)

Definition demo_indicator (d : SignalDirection) (c : Qc)
    (df : DataVal (list Z)) : Result (SignalTriple Json) :=
  match df with
  | DFrame [] => Ok (mkTriple neutral 0%Qc (JDict ∅))
  | DFrame prices => Ok (mkTriple d c (JList (JInt <$> prices)))
  | _ => Raise (AdapterFault "not a frame")
  end.

Definition demo_dumps (j : Json) : string :=
  match j with
  | JDict fields => "{" +:+ String.concat "," (map fst (map_to_list fields)) +:+ "}"
  | _ => "?"
  end.

Definition demo : Collaborators (list Z) Json := {|
  empty_frame := [];
  calculate_trend_signals := demo_indicator bullish (double 8 10);
  calculate_mean_reversion_signals := demo_indicator bearish (double 5 10);
  calculate_momentum_signals := demo_indicator bullish (double 995 1000);
  calculate_volatility_signals := demo_indicator neutral (double 5 10);
  calculate_stat_arb_signals := demo_indicator neutral (double 1 10);
  normalize_pandas := fun m => m;
  json_dumps := demo_dumps
|}.

(** Indicator functions that agree: all bullish with confidence 0.5049. *)
Definition demo_agreeing : Collaborators (list Z) Json := {|
  empty_frame := [];
  calculate_trend_signals := demo_indicator bullish (double 5049 10000);
  calculate_mean_reversion_signals := demo_indicator bullish (double 5049 10000);
  calculate_momentum_signals := demo_indicator bullish (double 5049 10000);
  calculate_volatility_signals := demo_indicator bullish (double 5049 10000);
  calculate_stat_arb_signals := demo_indicator bullish (double 5049 10000);
  normalize_pandas := fun m => m;
  json_dumps := demo_dumps
|}.

Definition demo_state : AgentState (list Z) := {|
  st_messages := [];
  st_data := list_to_map
    [("tickers", DTickers ["AAA"; "BBB"]);
     ("intervals", DIntervals [mkInterval "1d"]);
     ("AAA_1d", DFrame [100; 101; 103]%Z);
     ("analyst_signals", DSignals {["risk_agent" := JStr "hold"]})];
  st_metadata := {["show_reasoning" := true]}
|}.

(** A state whose one frame is not a frame: the indicator functions of
    [demo] raise on it. *)
Definition demo_corrupt_state : AgentState (list Z) := {|
  st_messages := [];
  st_data := list_to_map
    [("tickers", DTickers ["AAA"]);
     ("intervals", DIntervals [mkInterval "1d"]);
     ("AAA_1d", DStr "corrupt");
     ("analyst_signals", DSignals ∅)];
  st_metadata := {["show_reasoning" := true]}
|}.

(** A state with neither tickers nor intervals. *)
Definition demo_bare_state : AgentState (list Z) := {|
  st_messages := [];
  st_data := {["analyst_signals" := DSignals ∅]};
  st_metadata := {["show_reasoning" := false]}
|}.

(** [demo_state] without the ["show_reasoning"] flag. *)
Definition demo_unflagged_state : AgentState (list Z) := {|
  st_messages := [];
  st_data := st_data demo_state;
  st_metadata := ∅
|}.

(** A state that lacks the ["analyst_signals"] dict. *)
Definition demo_slotless_state : AgentState (list Z) := {|
  st_messages := [];
  st_data := list_to_map
    [("tickers", DTickers ["AAA"]);
     ("intervals", DIntervals [mkInterval "1d"])];
  st_metadata := {["show_reasoning" := true]}
|}.

(** A state that lacks the ["intervals"]. *)
Definition demo_no_intervals_state : AgentState (list Z) := {|
  st_messages := [];
  st_data := list_to_map
    [("tickers", DTickers ["AAA"; "BBB"]);
     ("AAA_1d", DFrame [100; 101; 103]%Z);
     ("analyst_signals", DSignals ∅)];
  st_metadata := {["show_reasoning" := true]}
|}.

(** * Properties *)

(** ** Arithmetic *)

Lemma Qc_ltb_lt (x y : Qc) : Qc_ltb x y = true <-> (x < y)%Qc.
Proof. unfold Qc_ltb, Qclt, Qlt. apply Z.ltb_lt. Qed.

Lemma Qc_ltb_ge (x y : Qc) : Qc_ltb x y = false <-> (y <= x)%Qc.
Proof. unfold Qc_ltb, Qcle, Qle. apply Z.ltb_ge. Qed.

Lemma Qc_is_zero_eq (x : Qc) : Qc_is_zero x = true <-> x = 0%Qc.
Proof.
  unfold Qc_is_zero. rewrite Z.eqb_eq. split.
  - intros Hn. apply Qc_is_canon. unfold Qeq. simpl. lia.
  - intros ->. reflexivity.
Qed.

Lemma Qc_is_zero_neq (x : Qc) : Qc_is_zero x = false <-> x <> 0%Qc.
Proof.
  rewrite <- Qc_is_zero_eq. destruct (Qc_is_zero x); split; congruence.
Qed.

Lemma round_half_even_nearest (n d : Z) :
  (0 < d)%Z ->
  (2 * n - d <= 2 * d * round_half_even n d <= 2 * n + d)%Z.
Proof.
  intros Hd. unfold round_half_even.
  pose proof (Z.div_mod n d ltac:(lia)) as Hdm.
  pose proof (Z.mod_pos_bound n d Hd) as Hm.
  repeat case_match; rewrite ?Z.ltb_lt, ?Z.ltb_ge in *; nia.
Qed.

Lemma round_half_even_range (lo hi n d : Z) :
  (0 < d)%Z -> (lo * d <= n)%Z -> (n <= hi * d)%Z ->
  (lo <= round_half_even n d <= hi)%Z.
Proof.
  intros Hd Hlo Hhi. unfold round_half_even.
  pose proof (Z.div_mod n d ltac:(lia)) as Hdm.
  pose proof (Z.mod_pos_bound n d Hd) as Hm.
  assert (lo <= n / d)%Z by (apply Z.div_le_lower_bound; lia).
  assert (n / d <= hi)%Z by (apply Z.div_le_upper_bound; lia).
  repeat case_match; rewrite ?Z.ltb_lt, ?Z.ltb_ge in *; try lia.
  all: destruct (Z.eq_dec (n / d)%Z hi) as [Heq|]; [|lia]; rewrite Heq in Hdm; nia.
Qed.

Lemma Qc_of_Z_le_num (z : Z) (x : Qc) :
  (Qc_of_Z z <= x)%Qc <-> (z * QDen x <= Qnum x)%Z.
Proof. unfold Qcle, Qle. simpl. lia. Qed.

Lemma Qc_le_of_Z_num (z : Z) (x : Qc) :
  (x <= Qc_of_Z z)%Qc <-> (Qnum x <= z * QDen x)%Z.
Proof. unfold Qcle, Qle. simpl. lia. Qed.

Lemma py_round_range (lo hi : Z) (x : Qc) :
  (Qc_of_Z lo <= x)%Qc -> (x <= Qc_of_Z hi)%Qc -> (lo <= py_round x <= hi)%Z.
Proof.
  rewrite Qc_of_Z_le_num, Qc_le_of_Z_num. intros Hlo Hhi.
  apply (round_half_even_range lo hi (Qnum x) (QDen x)); [reflexivity|lia|lia].
Qed.

Lemma py_round_nearest (x : Qc) :
  (x - qc 1 2 <= Qc_of_Z (py_round x) <= x + qc 1 2)%Qc.
Proof.
  pose proof (round_half_even_nearest (Qnum x) (QDen x) ltac:(reflexivity)) as H.
  change (round_half_even (Qnum x) (QDen x)) with (py_round x) in H.
  revert H. generalize (py_round x) as r. intros r H.
  unfold Qcle, Qcminus, Qcplus, Qcopp, qc, Q2Qc, this.
  rewrite !Qred_correct.
  destruct x as [[n d] c]. unfold Qle, Qplus, Qopp. simpl in *. lia.
Qed.

(** ** Binary64 arithmetic *)

Lemma binade_lower (n d : Z) :
  (0 < n)%Z -> (0 < d)%Z -> (0 <= binade n d)%Z ->
  (2 ^ binade n d * d <= n)%Z.
Proof.
  intros Hn Hd. unfold binade, pow2_le.
  destruct (Z.log2_spec n Hn) as [Hn1 _].
  destruct (Z.log2_spec d Hd) as [_ Hd2].
  pose proof (Z.log2_nonneg d) as Hd0.
  set (e := (Z.log2 n - Z.log2 d)%Z) in *.
  destruct (0 <=? e)%Z eqn:He.
  - destruct (2 ^ e * d <=? n)%Z eqn:Hle; intros Hb.
    + now apply Z.leb_le.
    + assert (Hpow : (2 ^ (e - 1) * 2 ^ Z.succ (Z.log2 d) = 2 ^ Z.log2 n)%Z).
      { rewrite <- Z.pow_add_r by lia. f_equal. lia. }
      assert (0 < 2 ^ (e - 1))%Z by (apply Z.pow_pos_nonneg; lia).
      nia.
  - apply Z.leb_gt in He.
    destruct (d <=? n * 2 ^ (- e))%Z; lia.
Qed.

(** A number below [2^k] lies in a binade below [k]. *)
Lemma binade_below (k n d : Z) :
  (0 <= k)%Z -> (0 < n)%Z -> (0 < d)%Z -> (n < 2 ^ k * d)%Z ->
  (binade n d < k)%Z.
Proof.
  intros Hk Hn Hd Hlt.
  destruct (Z.lt_ge_cases (binade n d) k) as [|Hge]; [assumption|].
  pose proof (binade_lower n d Hn Hd ltac:(lia)) as Hlow.
  pose proof (Z.pow_le_mono_r 2 k (binade n d) ltac:(lia) Hge) as Hmono.
  nia.
Qed.

Lemma ulp_exponent_below (k n d : Z) :
  (0 <= k)%Z -> (0 < n)%Z -> (0 < d)%Z -> (n < 2 ^ k * d)%Z ->
  (-1074 <= ulp_exponent n d <= Z.max (k - 53) (-1074))%Z.
Proof.
  intros Hk Hn Hd Hlt. unfold ulp_exponent.
  rewrite Z.abs_eq by lia.
  pose proof (binade_below k n d Hk Hn Hd Hlt). lia.
Qed.

Lemma round_binary64_0 : round_binary64 0 = 0%Qc.
Proof. apply Qc_is_canon. reflexivity. Qed.

Lemma Qnum_pos (x : Qc) : (0 <= x)%Qc -> x <> 0%Qc -> (0 < Qnum x)%Z.
Proof.
  intros H0 Hx. unfold Qcle, Qle in H0. simpl in H0.
  destruct (Z.eq_dec (Qnum x) 0%Z) as [Hz|]; [|lia].
  exfalso. apply Hx. apply Qc_is_canon. unfold Qeq. simpl. lia.
Qed.

(** Rounding to binary64 keeps a number below an integer of at most 53
    bits below it: the integer is a binary64 number itself. *)
Lemma round_binary64_range (K : Z) (x : Qc) :
  (0 <= K < 2 ^ 53)%Z -> (0 <= x)%Qc -> (x <= Qc_of_Z K)%Qc ->
  (0 <= round_binary64 x)%Qc /\ (round_binary64 x <= Qc_of_Z K)%Qc.
Proof.
  intros HK H0 HxK.
  destruct (decide (x = 0%Qc)) as [->|Hx].
  { rewrite round_binary64_0. split; [discriminate|].
    apply Qc_le_of_Z_num. simpl. lia. }
  pose proof (Qnum_pos x H0 Hx) as Hn.
  apply Qc_le_of_Z_num in HxK.
  assert (Hd : (0 < QDen x)%Z) by reflexivity.
  pose proof (ulp_exponent_below 53 (Qnum x) (QDen x) ltac:(lia) Hn Hd ltac:(nia))
    as [Hq1 Hq2].
  unfold round_binary64. set (q := ulp_exponent (Qnum x) (QDen x)) in *.
  destruct (0 <=? q)%Z eqn:Hq.
  - apply Z.leb_le in Hq. assert (q = 0%Z) as -> by lia.
    rewrite Z.pow_0_r, !Z.mul_1_r.
    pose proof (round_half_even_range 0 K (Qnum x) (QDen x) Hd ltac:(lia) HxK).
    rewrite <- Z2Qc_inj_0. split; apply (proj1 (Z2Qc_inj_le _ _)); lia.
  - apply Z.leb_gt in Hq.
    assert (Hp : (0 < 2 ^ (- q))%Z) by (apply Z.pow_pos_nonneg; lia).
    pose proof (round_half_even_range 0 (K * 2 ^ (- q))
                  (Qnum x * 2 ^ (- q)) (QDen x) Hd ltac:(nia) ltac:(nia)) as Hr.
    unfold Qcle, Q2Qc. cbn [this]. rewrite !Qred_correct.
    unfold Qle. cbn [Qnum Qden Qc_of_Z this inject_Z]. rewrite Z2Pos.id by exact Hp. lia.
Qed.


(** Below [2^k] the binary64 numbers are at most [2^(k-53)] apart, so that
    rounding moves a number by at most [2^(k-54)]. *)
Lemma round_binary64_near (k : Z) (x : Qc) :
  (0 <= k <= 52)%Z -> (0 <= x)%Qc -> (Qnum x < 2 ^ k * QDen x)%Z ->
  (x - Q2Qc (1 # Z.to_pos (2 ^ (54 - k))) <= round_binary64 x)%Qc
  /\ (round_binary64 x <= x + Q2Qc (1 # Z.to_pos (2 ^ (54 - k))))%Qc.
Proof.
  intros Hk H0 Hlt.
  assert (HE : (0 < 2 ^ (54 - k))%Z) by (apply Z.pow_pos_nonneg; lia).
  destruct (decide (x = 0%Qc)) as [->|Hx].
  { rewrite round_binary64_0.
    unfold Qcle, Qcminus, Qcplus, Qcopp, Q2Qc. cbn [this].
    rewrite !Qred_correct. unfold Qle, Qplus, Qopp.
    cbn [Qnum Qden]. rewrite ?Z2Pos.id by exact HE. lia. }
  pose proof (Qnum_pos x H0 Hx) as Hn.
  assert (Hd : (0 < QDen x)%Z) by reflexivity.
  pose proof (ulp_exponent_below k (Qnum x) (QDen x) ltac:(lia) Hn Hd Hlt)
    as [Hq1 Hq2].
  unfold round_binary64. set (q := ulp_exponent (Qnum x) (QDen x)) in *.
  assert (Hq : (q < 0)%Z) by lia.
  apply Z.leb_gt in Hq as Hq'. rewrite Hq'.
  assert (HP : (0 < 2 ^ (- q))%Z) by (apply Z.pow_pos_nonneg; lia).
  assert (HEP : (2 ^ (54 - k) <= 2 * 2 ^ (- q))%Z).
  { replace (2 * 2 ^ (- q))%Z with (2 ^ (1 - q))%Z
      by (replace (1 - q)%Z with (Z.succ (- q)) by lia; apply Z.pow_succ_r; lia).
    apply Z.pow_le_mono_r; lia. }
  pose proof (round_half_even_nearest (Qnum x * 2 ^ (- q)) (QDen x) Hd) as Hr.
  revert Hr. generalize (round_half_even (Qnum x * 2 ^ (- q)) (QDen x)) as m.
  intros m Hr.
  unfold Qcle, Qcminus, Qcplus, Qcopp, Q2Qc. cbn [this].
  rewrite !Qred_correct. unfold Qle, Qplus, Qopp.
  cbn [Qnum Qden]. rewrite ?Pos2Z.inj_mul, ?Z2Pos.id by assumption.
  revert HE HP HEP Hr Hn Hd.
  generalize (2 ^ (54 - k))%Z as E, (2 ^ (- q))%Z as P, (Qnum x) as n, (QDen x) as d.
  intros E P n d HE HP HEP Hr Hn Hd. nia.
Qed.

(** [round_binary64] against the floats of the kernel: decimal literals and
    products, among them ties, subnormal results and negative numbers. *)
Lemma double_as_the_kernel :
  float_value 0.995%float = Some (double 995 1000)
  /\ float_value 0.5049%float = Some (double 5049 10000)
  /\ float_value 0.1%float = Some (double 1 10)
  /\ float_value 0.45%float = Some (double 45 100).
Proof. repeat split; vm_compute; reflexivity. Qed.

Lemma float_mul_as_the_kernel :
  forallb (fun xy : float * float => float_mul_agrees xy.1 xy.2)
    [(0.995, 100); (0.5049, 100); (0.005, 100); (0.075, 100); (0.285, 100);
     (0.1, 3); (0.45, 0.8); (-0.995, 100); (1.1, 1.1); (1e300, 1e-300);
     (0x1p-1074, 0.5); (0x3p-1074, 0.5); (0x1p-1070, 0.3); (1e-200, 1e-200);
     (0x1.fffffffffffffp+0, 0x1.fffffffffffffp+0); (0, 100)]%float
  = true.
Proof. vm_compute. reflexivity. Qed.

(** Every confidence of up to three decimals, 0.000 to 1.000: the float
    is the one [double] gives, and its product with [100] is the one
    [float_mul] gives. *)
Lemma confidence_times_100_as_the_kernel :
  forallb (fun k => double_agrees k && float_mul_agrees (decimal3 k) 100)
    (seqZ 0 1001)
  = true.
Proof. vm_compute. reflexivity. Qed.

(** ** Percentages *)

Lemma times_100_range (c : Qc) :
  (0 <= c)%Qc -> (c <= 1)%Qc ->
  (0 <= c * Qc_of_Z 100)%Qc /\ (c * Qc_of_Z 100 <= Qc_of_Z 100)%Qc.
Proof.
  intros H0 H1. split.
  - replace 0%Qc with (0 * Qc_of_Z 100)%Qc
      by (apply Qc_is_canon; reflexivity).
    apply Qcmult_le_compat_r; [exact H0 | discriminate].
  - replace (Qc_of_Z 100) with (1 * Qc_of_Z 100)%Qc at 2
      by (apply Qc_is_canon; reflexivity).
    apply Qcmult_le_compat_r; [exact H1 | discriminate].
Qed.

(** The product of a confidence in [0, 1] and [100] is a float in
    [0, 100]. *)
Lemma float_mul_100_range (c : Qc) :
  (0 <= c)%Qc -> (c <= 1)%Qc ->
  (0 <= float_mul c (Qc_of_Z 100))%Qc
  /\ (float_mul c (Qc_of_Z 100) <= Qc_of_Z 100)%Qc.
Proof.
  intros H0 H1. destruct (times_100_range c H0 H1) as [Hlo Hhi].
  apply round_binary64_range; [split; [lia | reflexivity] | exact Hlo | exact Hhi].
Qed.

(** A confidence in [0, 1] becomes a percentage in [0, 100]. *)
Lemma percent_range (c : Qc) :
  (0 <= c)%Qc -> (c <= 1)%Qc ->
  (0 <= py_round (float_mul c (Qc_of_Z 100)) <= 100)%Z.
Proof.
  intros H0 H1. destruct (float_mul_100_range c H0 H1) as [Hlo Hhi].
  apply py_round_range; [|exact Hhi].
  now replace (Qc_of_Z 0) with 0%Qc by (apply Qc_is_canon; reflexivity).
Qed.

(** Between [0] and [100] two neighbouring floats are at most [2^-46]
    apart: the product of a confidence and [100] is within [2^-47] of the
    exact product. *)
Lemma float_mul_100_near (c : Qc) :
  (0 <= c)%Qc -> (c <= 1)%Qc ->
  (c * Qc_of_Z 100 - qc 1 (2 ^ 47) <= float_mul c (Qc_of_Z 100))%Qc
  /\ (float_mul c (Qc_of_Z 100) <= c * Qc_of_Z 100 + qc 1 (2 ^ 47))%Qc.
Proof.
  intros H0 H1. destruct (times_100_range c H0 H1) as [Hlo Hhi].
  apply Qc_le_of_Z_num in Hhi.
  apply (round_binary64_near 7); [lia | exact Hlo |].
  change (2 ^ 7)%Z with 128%Z. lia.
Qed.

(** ** The fusion engine *)

Section FusionProperties.
Context {M : Type}.
Implicit Types (signals : list (string * SignalTriple M)).
Implicit Types (weights : gmap string Qc).

Lemma used_weight_nonneg weights label :
  (0 <= Fusion.used_weight weights label)%Qc.
Proof.
  unfold Fusion.used_weight.
  destruct (Qc_ltb 0 _) eqn:Hlt; [|apply Qcle_refl].
  apply Qclt_le_weak, Qc_ltb_lt, Hlt.
Qed.

Lemma total_weight_nonneg weights signals :
  (0 <= Fusion.total_weight weights signals)%Qc.
Proof.
  induction signals as [|entry rest IH]; simpl; [apply Qcle_refl|].
  apply Qcplus_nonneg_nonneg; [apply used_weight_nonneg | exact IH].
Qed.

Lemma clamp01_range (x : Qc) :
  (0 <= Fusion.clamp01 x)%Qc /\ (Fusion.clamp01 x <= 1)%Qc.
Proof.
  unfold Fusion.clamp01.
  destruct (Qc_ltb x 0) eqn:H0; [split; [apply Qcle_refl | discriminate]|].
  destruct (Qc_ltb 1 x) eqn:H1; [split; [discriminate | apply Qcle_refl]|].
  split; [apply Qc_ltb_ge, H0 | apply Qc_ltb_ge, H1].
Qed.

Lemma fuse_confidence_range epsilon signals weights r :
  Fusion.fuse epsilon signals weights = Ok r ->
  (0 <= consensus_confidence r)%Qc /\ (consensus_confidence r <= 1)%Qc.
Proof.
  unfold Fusion.fuse. destruct (Qc_is_zero _); [discriminate|].
  intros [= <-]. apply clamp01_range.
Qed.

(** *** Order of the labels *)

Lemma weighted_sum_perm weights signals signals' :
  signals ≡ₚ signals' ->
  Fusion.weighted_sum weights signals = Fusion.weighted_sum weights signals'.
Proof.
  induction 1 as [|x l l' _ IH|x y l|l l' l'' _ IH1 _ IH2]; simpl.
  - reflexivity.
  - now rewrite IH.
  - ring.
  - now rewrite IH1.
Qed.

Lemma total_weight_perm weights signals signals' :
  signals ≡ₚ signals' ->
  Fusion.total_weight weights signals = Fusion.total_weight weights signals'.
Proof.
  induction 1 as [|x l l' _ IH|x y l|l l' l'' _ IH1 _ IH2]; simpl.
  - reflexivity.
  - now rewrite IH.
  - ring.
  - now rewrite IH1.
Qed.

(** *** Scaling the profile *)

Lemma weight_of_scale (c : Qc) weights label :
  Fusion.weight_of (Fusion.scale_weights c weights) label
  = (c * Fusion.weight_of weights label)%Qc.
Proof.
  unfold Fusion.weight_of, Fusion.scale_weights. rewrite lookup_fmap.
  destruct (weights !! label); simpl; [reflexivity | ring].
Qed.

Lemma Qc_ltb_scale (c w : Qc) :
  (0 < c)%Qc -> Qc_ltb 0 (c * w) = Qc_ltb 0 w.
Proof.
  intros Hc. destruct (Qc_ltb 0 w) eqn:Hw.
  - apply Qc_ltb_lt. apply Qc_ltb_lt in Hw.
    replace 0%Qc with (c * 0)%Qc by ring.
    now apply Qcmult_lt_mono_pos_l.
  - apply Qc_ltb_ge. apply Qc_ltb_ge in Hw.
    replace 0%Qc with (c * 0)%Qc by ring.
    now apply Qcmult_le_mono_pos_l.
Qed.

Lemma used_weight_scale (c : Qc) weights label :
  (0 < c)%Qc ->
  Fusion.used_weight (Fusion.scale_weights c weights) label
  = (c * Fusion.used_weight weights label)%Qc.
Proof.
  intros Hc. unfold Fusion.used_weight.
  rewrite weight_of_scale, Qc_ltb_scale by exact Hc.
  destruct (Qc_ltb 0 _); [reflexivity | ring].
Qed.

Lemma weighted_sum_scale (c : Qc) weights signals :
  (0 < c)%Qc ->
  Fusion.weighted_sum (Fusion.scale_weights c weights) signals
  = (c * Fusion.weighted_sum weights signals)%Qc.
Proof.
  intros Hc. induction signals as [|entry rest IH]; simpl; [ring|].
  unfold Fusion.contribution. rewrite IH, used_weight_scale by exact Hc. ring.
Qed.

Lemma total_weight_scale (c : Qc) weights signals :
  (0 < c)%Qc ->
  Fusion.total_weight (Fusion.scale_weights c weights) signals
  = (c * Fusion.total_weight weights signals)%Qc.
Proof.
  intros Hc. induction signals as [|entry rest IH]; simpl; [ring|].
  rewrite IH, used_weight_scale by exact Hc. ring.
Qed.

(** *** A profile without usable weight *)

Lemma total_weight_all_zero weights signals :
  (forall label w, weights !! label = Some w -> w = 0%Qc) ->
  Fusion.total_weight weights signals = 0%Qc.
Proof.
  intros Hzero. induction signals as [|entry rest IH]; simpl; [reflexivity|].
  rewrite IH. unfold Fusion.used_weight, Fusion.weight_of.
  destruct (weights !! entry.1) as [w|] eqn:Hw; simpl.
  - rewrite (Hzero _ _ Hw). reflexivity.
  - reflexivity.
Qed.

End FusionProperties.

(** ** The traced computations *)

Section Loops.
Context {DataFrame RawMetrics : Type} `{!Collaborators DataFrame RawMetrics}.
Implicit Types (record : string -> Interval -> Traced (Event DataFrame) Json).
Implicit Types (analysis inner : gmap string Json).
Implicit Types (tickers : list string) (intervals : list Interval).

Lemma bind_ok {E A B} (m : Traced E A) (k : A -> Traced E B) a :
  m.2 = Ok a -> bind m k = (m.1 ++ (k a).1, (k a).2).
Proof. unfold bind. now intros ->. Qed.

Lemma bind_is_ok {E A B} (m : Traced E A) (k : A -> Traced E B) :
  is_ok (bind m k).2 = true ->
  exists a, m.2 = Ok a /\ is_ok (k a).2 = true.
Proof.
  unfold bind. destruct m.2 as [a|e]; simpl; [eauto | discriminate].
Qed.

Lemma is_ok_ok_or {A} (d : A) (r : Result A) :
  is_ok r = true -> r = Ok (ok_or d r).
Proof. destruct r; [reflexivity | discriminate]. Qed.

Lemma value_inj (i j : Interval) : value i = value j -> i = j.
Proof. destruct i, j. simpl. now intros ->. Qed.

(** *** One ticker *)

Lemma fill_snoc record ticker intervals interval inner :
  fill record ticker (intervals ++ [interval]) inner
  = <[value interval := ok_or (JDict ∅) (record ticker interval).2]>
      (fill record ticker intervals inner).
Proof. unfold fill. now rewrite foldl_app. Qed.

Lemma fill_lookup_in record ticker intervals inner interval :
  interval ∈ intervals ->
  fill record ticker intervals inner !! value interval
  = Some (ok_or (JDict ∅) (record ticker interval).2).
Proof.
  induction intervals as [|j intervals IH] using rev_ind; [now intros ?%elem_of_nil|].
  rewrite fill_snoc. intros Hin.
  destruct (decide (value j = value interval)) as [Heq|Hne].
  - apply value_inj in Heq as ->. apply lookup_insert_eq.
  - rewrite lookup_insert_ne by exact Hne. apply IH.
    apply elem_of_app in Hin as [Hin|Hin%list_elem_of_singleton]; [exact Hin|].
    now subst.
Qed.

Lemma fill_lookup_notin record ticker intervals inner key :
  key ∉ value <$> intervals ->
  fill record ticker intervals inner !! key = inner !! key.
Proof.
  induction intervals as [|j intervals IH] using rev_ind; [reflexivity|].
  rewrite fill_snoc, fmap_app. simpl. intros Hnot.
  rewrite lookup_insert_ne; [apply IH|]; set_solver.
Qed.

Lemma fill_dom record ticker intervals inner :
  dom (fill record ticker intervals inner)
  = dom inner ∪ list_to_set (value <$> intervals).
Proof.
  induction intervals as [|j intervals IH] using rev_ind.
  - simpl. set_solver.
  - rewrite fill_snoc, dom_insert_L, IH, fmap_app, list_to_set_app_L. simpl. set_solver.
Qed.

Lemma fill_idem record ticker intervals :
  fill record ticker intervals (fill record ticker intervals ∅)
  = fill record ticker intervals ∅.
Proof.
  apply map_eq. intros key.
  destruct (decide (key ∈ value <$> intervals)) as [Hin|Hnot].
  - apply list_elem_of_fmap in Hin as (i & -> & Hi).
    now rewrite !fill_lookup_in.
  - now rewrite (fill_lookup_notin _ _ _ (fill _ _ _ _)).
Qed.

Lemma inner_loop_ok record ticker intervals : forall analysis inner,
  analysis !! ticker = Some (JDict inner) ->
  (forall interval, interval ∈ intervals ->
     is_ok (record ticker interval).2 = true) ->
  inner_loop record ticker intervals analysis
  = (flat_map (fun interval => (record ticker interval).1) intervals,
     Ok (<[ticker := JDict (fill record ticker intervals inner)]> analysis)).
Proof.
  induction intervals as [|i intervals IH]; intros analysis inner Hlook Hok.
  - simpl. unfold ret. now rewrite insert_id.
  - unfold inner_loop. simpl.
    pose proof (is_ok_ok_or (JDict ∅) _ (Hok i ltac:(left))) as Hi.
    set (r := ok_or (JDict ∅) (record ticker i).2) in *.
    assert (Hset : set_item2 analysis ticker (value i) r
                   = Ok (<[ticker := JDict (<[value i := r]> inner)]> analysis))
      by (unfold set_item2; now rewrite Hlook).
    rewrite (bind_ok _ _ (<[ticker := JDict (<[value i := r]> inner)]> analysis)).
    2:{ rewrite (bind_ok _ _ r Hi). simpl. exact Hset. }
    rewrite (bind_ok _ _ r Hi). simpl. rewrite app_nil_r.
    fold (inner_loop record ticker intervals
            (<[ticker:=JDict (<[value i:=r]> inner)]> analysis)).
    rewrite (IH _ (<[value i := r]> inner)).
    + simpl. now rewrite insert_insert_eq.
    + apply lookup_insert_eq.
    + intros j Hj. apply Hok. now right.
Qed.

Lemma inner_loop_ok_inv record ticker intervals : forall analysis,
  is_ok (inner_loop record ticker intervals analysis).2 = true ->
  forall interval, interval ∈ intervals ->
    is_ok (record ticker interval).2 = true.
Proof.
  induction intervals as [|i intervals IH]; intros analysis Hok j Hj.
  - now apply elem_of_nil in Hj.
  - unfold inner_loop in Hok. simpl in Hok.
    apply bind_is_ok in Hok as (analysis' & Hbody & Hrest).
    apply elem_of_cons in Hj as [->|Hj].
    + destruct (record ticker i) as [tr [r|e]] eqn:Hr; [reflexivity|].
      unfold bind in Hbody. simpl in Hbody. discriminate.
    + exact (IH analysis' Hrest j Hj).
Qed.

(** *** All tickers *)

Lemma init_analysis_lookup tickers ticker :
  init_analysis tickers !! ticker
  = if decide (ticker ∈ tickers) then Some (JDict ∅) else None.
Proof.
  unfold init_analysis.
  induction tickers as [|t tickers IH] using rev_ind.
  - simpl. now rewrite lookup_empty.
  - rewrite foldl_app. simpl.
    destruct (decide (t = ticker)) as [->|Hne].
    + rewrite lookup_insert_eq. rewrite decide_True by set_solver. reflexivity.
    + rewrite lookup_insert_ne by exact Hne. rewrite IH.
      repeat case_decide; set_solver.
Qed.

Lemma outer_loop_ok record tickers intervals : forall rest done analysis,
  (forall ticker, analysis !! ticker = progress record tickers done intervals ticker) ->
  (forall ticker, ticker ∈ rest -> ticker ∈ tickers) ->
  (forall ticker interval, ticker ∈ rest -> interval ∈ intervals ->
     is_ok (record ticker interval).2 = true) ->
  exists analysis',
    pair_loops record rest intervals analysis
    = (flat_map (fun ticker =>
         flat_map (fun interval => (record ticker interval).1) intervals) rest,
       Ok analysis')
    /\ forall ticker,
         analysis' !! ticker = progress record tickers (done ++ rest) intervals ticker.
Proof.
  induction rest as [|t rest IH]; intros done analysis Hinv Hsub Hok.
  - exists analysis. split; [reflexivity|]. now rewrite app_nil_r.
  - unfold pair_loops. simpl.
    assert (Ht : t ∈ tickers) by (apply Hsub; left).
    pose proof (Hinv t) as Hlook. unfold progress in Hlook.
    rewrite decide_True in Hlook by exact Ht.
    pose proof (inner_loop_ok record t intervals analysis _ Hlook
                  (fun i Hi => Hok t i ltac:(left) Hi)) as Hinner.
    unfold inner_loop in Hinner.
    rewrite (bind_ok _ _ _ (f_equal snd Hinner)).
    rewrite Hinner. simpl.
    set (analysis1 := <[t := _]> analysis).
    destruct (IH (done ++ [t]) analysis1) as (analysis' & Hrun & Hinv').
    + intros ticker. unfold analysis1, progress.
      destruct (decide (t = ticker)) as [->|Hne].
      * rewrite lookup_insert_eq.
        rewrite (decide_True (P := ticker ∈ tickers)) by exact Ht.
        rewrite (decide_True (P := ticker ∈ done ++ [ticker])) by set_solver.
        destruct (decide (ticker ∈ done)); [now rewrite fill_idem | reflexivity].
      * rewrite lookup_insert_ne by exact Hne. rewrite Hinv. unfold progress.
        destruct (decide (ticker ∈ tickers)); [|reflexivity].
        destruct (decide (ticker ∈ done)).
        -- rewrite decide_True by set_solver. reflexivity.
        -- rewrite decide_False by set_solver. reflexivity.
    + intros ticker Hin. apply Hsub. now right.
    + intros ticker i Hin Hi. apply Hok; [now right | exact Hi].
    + exists analysis'. unfold pair_loops in Hrun. rewrite Hrun. simpl.
      split; [reflexivity|]. intros ticker. rewrite Hinv'.
      now rewrite <- app_assoc.
Qed.

Lemma pair_loops_ok record tickers intervals :
  (forall ticker interval, ticker ∈ tickers -> interval ∈ intervals ->
     is_ok (record ticker interval).2 = true) ->
  exists report,
    pair_loops record tickers intervals (init_analysis tickers)
    = (flat_map (fun ticker =>
         flat_map (fun interval => (record ticker interval).1) intervals) tickers,
       Ok report)
    /\ forall ticker,
         report !! ticker
         = if decide (ticker ∈ tickers)
           then Some (JDict (fill record ticker intervals ∅)) else None.
Proof.
  intros Hok.
  destruct (outer_loop_ok record tickers intervals tickers [] (init_analysis tickers))
    as (report & Hrun & Hinv); [| auto | exact Hok |].
  - intros ticker. rewrite init_analysis_lookup. unfold progress.
    destruct (decide (ticker ∈ tickers)); [|reflexivity].
    destruct (decide (ticker ∈ [])) as [Hnil|]; [|reflexivity].
    now apply elem_of_nil in Hnil.
  - exists report. split; [exact Hrun|]. intros ticker. rewrite Hinv.
    unfold progress. rewrite app_nil_l.
    destruct (decide (ticker ∈ tickers)); reflexivity.
Qed.

Lemma pair_loops_ok_inv record intervals : forall tickers analysis,
  is_ok (pair_loops record tickers intervals analysis).2 = true ->
  forall ticker interval, ticker ∈ tickers -> interval ∈ intervals ->
    is_ok (record ticker interval).2 = true.
Proof.
  induction tickers as [|t tickers IH]; intros analysis Hok ticker i Hin Hi.
  - now apply elem_of_nil in Hin.
  - unfold pair_loops in Hok. simpl in Hok.
    apply bind_is_ok in Hok as (analysis' & Hbody & Hrest).
    apply elem_of_cons in Hin as [->|Hin].
    + apply (inner_loop_ok_inv record t intervals analysis); [|exact Hi].
      unfold inner_loop. now rewrite Hbody.
    + exact (IH analysis' Hrest ticker i Hin Hi).
Qed.

End Loops.

(** ** One pair *)

Section Records.
Context {DataFrame RawMetrics : Type} `{!Collaborators DataFrame RawMetrics}.
Implicit Types (data : gmap string (DataVal DataFrame)).
Implicit Types (tr mo me vo : SignalTriple RawMetrics).

Lemma EMA_fusion_ok tr mo me vo :
  exists combined,
    Fusion.weighted_signal_combination
      [("ema_crossovers", tr); ("ema_slope", mo); ("price_to_ema", me);
       ("multi_timeframe", tr); ("ema_volatility", vo)]
      EMA_strategy_weights = Ok combined.
Proof.
  unfold Fusion.weighted_signal_combination, Fusion.fuse.
  match goal with
  | |- context [Qc_is_zero ?W] =>
      assert (Qc_is_zero W = false) as -> by (vm_compute; reflexivity)
  end.
  eauto.
Qed.

Lemma RSI_fusion_ok tr mo me vo :
  exists combined,
    Fusion.weighted_signal_combination
      [("rsi_overbought_oversold", me); ("rsi_divergence", tr);
       ("rsi_trend_strength", mo); ("rsi_volatility", vo); ("momentum", mo)]
      RSI_strategy_weights = Ok combined.
Proof.
  unfold Fusion.weighted_signal_combination, Fusion.fuse.
  match goal with
  | |- context [Qc_is_zero ?W] =>
      assert (Qc_is_zero W = false) as -> by (vm_compute; reflexivity)
  end.
  eauto.
Qed.

Lemma EMAStrategy_record_ok data ticker interval tr mo me vo :
  let df := get_frame data ticker interval in
  run_adapter Trend df = Ok tr ->
  run_adapter Momentum df = Ok mo ->
  run_adapter MeanReversion df = Ok me ->
  run_adapter Volatility df = Ok vo ->
  exists combined,
    Fusion.weighted_signal_combination
      [("ema_crossovers", tr); ("ema_slope", mo); ("price_to_ema", me);
       ("multi_timeframe", tr); ("ema_volatility", vo)]
      EMA_strategy_weights = Ok combined
    /\ EMAStrategy_record data ticker interval
       = (pair_calls df, Ok (EMA_report_record combined tr mo me vo)).
Proof.
  intros df Ht Hm Hr Hv.
  destruct (EMA_fusion_ok tr mo me vo) as [combined Hc].
  exists combined. split; [exact Hc|].
  unfold EMAStrategy_record, invoke, bind, lift, ret. fold df.
  cbn [fst snd]. rewrite Ht. cbn [fst snd]. rewrite Hm. cbn [fst snd].
  rewrite Hr. cbn [fst snd]. rewrite Hv. cbn [fst snd]. rewrite Hc.
  reflexivity.
Qed.

Lemma RSIStrategy_record_ok data ticker interval tr mo me vo :
  let df := get_frame data ticker interval in
  run_adapter Trend df = Ok tr ->
  run_adapter Momentum df = Ok mo ->
  run_adapter MeanReversion df = Ok me ->
  run_adapter Volatility df = Ok vo ->
  exists combined,
    Fusion.weighted_signal_combination
      [("rsi_overbought_oversold", me); ("rsi_divergence", tr);
       ("rsi_trend_strength", mo); ("rsi_volatility", vo); ("momentum", mo)]
      RSI_strategy_weights = Ok combined
    /\ RSIStrategy_record data ticker interval
       = (pair_calls df, Ok (RSI_report_record combined tr mo me vo)).
Proof.
  intros df Ht Hm Hr Hv.
  destruct (RSI_fusion_ok tr mo me vo) as [combined Hc].
  exists combined. split; [exact Hc|].
  unfold RSIStrategy_record, invoke, bind, lift, ret. fold df.
  cbn [fst snd]. rewrite Ht. cbn [fst snd]. rewrite Hm. cbn [fst snd].
  rewrite Hr. cbn [fst snd]. rewrite Hv. cbn [fst snd]. rewrite Hc.
  reflexivity.
Qed.

(** A pair that completes has had its four indicator functions return. *)
Lemma record_ok_inv strategy data ticker interval :
  is_ok (record_of strategy data ticker interval).2 = true ->
  exists tr mo me vo,
    let df := get_frame data ticker interval in
    run_adapter Trend df = Ok tr /\
    run_adapter Momentum df = Ok mo /\
    run_adapter MeanReversion df = Ok me /\
    run_adapter Volatility df = Ok vo.
Proof.
  intros Hok.
  assert (Hfour : forall (k : SignalTriple RawMetrics -> SignalTriple RawMetrics ->
                              SignalTriple RawMetrics -> SignalTriple RawMetrics ->
                              Traced (Event DataFrame) Json) df,
             is_ok (let! tr := invoke Trend df in
                    let! mo := invoke Momentum df in
                    let! me := invoke MeanReversion df in
                    let! vo := invoke Volatility df in
                    k tr mo me vo).2 = true ->
             exists tr mo me vo,
               run_adapter Trend df = Ok tr /\ run_adapter Momentum df = Ok mo /\
               run_adapter MeanReversion df = Ok me /\ run_adapter Volatility df = Ok vo).
  { intros k df H.
    apply bind_is_ok in H as (tr & Ht & H).
    apply bind_is_ok in H as (mo & Hm & H).
    apply bind_is_ok in H as (me & Hr & H).
    apply bind_is_ok in H as (vo & Hv & _).
    exists tr, mo, me, vo. auto. }
  destruct strategy; cbn [record_of] in Hok;
    unfold EMAStrategy_record, RSIStrategy_record in Hok;
    cbv zeta in Hok; exact (Hfour _ _ Hok).
Qed.

End Records.

(** ** A whole call *)

Section Calls.
Context {DataFrame RawMetrics : Type} `{!Collaborators DataFrame RawMetrics}.
Implicit Types (data : gmap string (DataVal DataFrame)).
Implicit Types (state : AgentState DataFrame).
Implicit Types (tickers : list string) (intervals : list Interval).

(** The key of a frame carries an underscore, ["name"] does not. *)
Lemma frame_key_not_name (ticker label : string) :
  ticker +:+ "_" +:+ label <> "name".
Proof.
  destruct ticker as [|a [|b [|c [|d [|e ticker]]]]]; cbn; intros H;
    repeat (injection H as ? H; subst); discriminate.
Qed.

Lemma get_frame_name data (x : DataVal DataFrame) ticker interval :
  get_frame (<["name" := x]> data) ticker interval = get_frame data ticker interval.
Proof.
  unfold get_frame. rewrite lookup_insert_ne; [reflexivity|].
  intros H. symmetry in H. exact (frame_key_not_name _ _ H).
Qed.

Lemma get_tickers_name data (x : DataVal DataFrame) :
  get_tickers (<["name" := x]> data) = get_tickers data.
Proof. unfold get_tickers. now rewrite lookup_insert_ne. Qed.

Lemma get_intervals_name data (x : DataVal DataFrame) :
  get_intervals (<["name" := x]> data) = get_intervals data.
Proof. unfold get_intervals. now rewrite lookup_insert_ne. Qed.

Lemma record_of_name strategy data (x : DataVal DataFrame) ticker interval :
  record_of strategy (<["name" := x]> data) ticker interval
  = record_of strategy data ticker interval.
Proof.
  destruct strategy; cbn [record_of];
    unfold EMAStrategy_record, RSIStrategy_record;
    now rewrite get_frame_name.
Qed.

Lemma analysis_of_shape strategy :
  analysis_of strategy = strategy_analysis (record_of strategy).
Proof. destruct strategy; reflexivity. Qed.

Lemma EMAStrategy_call_shape :
  EMAStrategy_call = strategy_call "EMAStrategy" "EMA Analyst" EMAStrategy_record.
Proof. reflexivity. Qed.

Lemma RSIStrategy_call_shape :
  RSIStrategy_call = strategy_call "RSIStrategy" "RSI Analyst" RSIStrategy_record.
Proof. reflexivity. Qed.

Lemma call_shape strategy :
  call strategy
  = strategy_call (strategy_name strategy) (strategy_title strategy)
      (record_of strategy).
Proof. destruct strategy; reflexivity. Qed.

Lemma bind_lift_ok {E A B} (a : A) (k : A -> Traced E B) :
  bind (lift (Ok a)) k = k a.
Proof. unfold bind, lift. simpl. now destruct (k a). Qed.

Lemma strategy_analysis_loops record data tickers intervals :
  get_tickers data = Ok tickers ->
  get_intervals data = Ok intervals ->
  strategy_analysis record data
  = pair_loops (record data) tickers intervals (init_analysis tickers).
Proof.
  intros Ht Hi. unfold strategy_analysis.
  now rewrite Ht, bind_lift_ok, Hi, bind_lift_ok.
Qed.

Lemma flat_map_agree {A B} (f g : A -> list B) (l : list A) :
  (forall x, x ∈ l -> f x = g x) -> flat_map f l = flat_map g l.
Proof.
  induction l as [|x l IH]; intros H; simpl; [reflexivity|].
  rewrite (H x) by left. rewrite IH; [reflexivity|].
  intros y Hy. apply H. now right.
Qed.

Lemma get_tickers_some data tickers :
  data !! "tickers" = Some (DTickers tickers) -> get_tickers data = Ok tickers.
Proof. unfold get_tickers. now intros ->. Qed.

Lemma get_intervals_some data intervals :
  data !! "intervals" = Some (DIntervals intervals) ->
  get_intervals data = Ok intervals.
Proof. unfold get_intervals. now intros ->. Qed.

(** What a pair logs and whether it completes is decided by the four
    indicator functions alone. *)
Lemma record_of_ok strategy data ticker interval :
  (forall a, a ∈ adapters_used ->
     is_ok (run_adapter a (get_frame data ticker interval)) = true) ->
  (record_of strategy data ticker interval).1
    = pair_calls (get_frame data ticker interval)
  /\ is_ok (record_of strategy data ticker interval).2 = true.
Proof.
  intros Hall.
  assert (Hret : forall a, a ∈ adapters_used ->
            exists s, run_adapter a (get_frame data ticker interval) = Ok s).
  { intros a Ha. specialize (Hall a Ha).
    destruct (run_adapter a _) as [s|]; [eauto | discriminate]. }
  destruct (Hret Trend) as [tr Ht]; [unfold adapters_used; set_solver|].
  destruct (Hret Momentum) as [mo Hm]; [unfold adapters_used; set_solver|].
  destruct (Hret MeanReversion) as [me Hr]; [unfold adapters_used; set_solver|].
  destruct (Hret Volatility) as [vo Hv]; [unfold adapters_used; set_solver|].
  destruct strategy; cbn [record_of].
  - destruct (EMAStrategy_record_ok data ticker interval tr mo me vo Ht Hm Hr Hv)
      as (combined & _ & ->). split; reflexivity.
  - destruct (RSIStrategy_record_ok data ticker interval tr mo me vo Ht Hm Hr Hv)
      as (combined & _ & ->). split; reflexivity.
Qed.

Lemma record_of_ok_inv strategy data ticker interval a :
  is_ok (record_of strategy data ticker interval).2 = true ->
  a ∈ adapters_used ->
  is_ok (run_adapter a (get_frame data ticker interval)) = true.
Proof.
  intros (tr & mo & me & vo & Ht & Hm & Hr & Hv)%record_ok_inv Ha.
  unfold adapters_used in Ha.
  repeat (apply elem_of_cons in Ha as [->|Ha]; [now rewrite ?Ht, ?Hm, ?Hr, ?Hv|]).
  now apply elem_of_nil in Ha.
Qed.

Lemma analysis_of_ok strategy data tickers intervals :
  data !! "tickers" = Some (DTickers tickers) ->
  data !! "intervals" = Some (DIntervals intervals) ->
  adapters_return data tickers intervals ->
  exists report,
    analysis_of strategy data
    = (flat_map (fun ticker =>
         flat_map (fun interval => pair_calls (get_frame data ticker interval))
           intervals) tickers,
       Ok report)
    /\ report_built strategy data tickers intervals report.
Proof.
  intros Ht Hi Hret.
  rewrite analysis_of_shape,
    (strategy_analysis_loops _ _ _ _ (get_tickers_some _ _ Ht)
       (get_intervals_some _ _ Hi)).
  destruct (pair_loops_ok (record_of strategy data) tickers intervals)
    as (report & Hrun & Hbuilt).
  { intros ticker interval Hin Hiv.
    apply record_of_ok. intros a Ha. now apply Hret. }
  exists report. split; [|exact Hbuilt].
  rewrite Hrun. f_equal.
  apply flat_map_agree. intros ticker Hin.
  apply flat_map_agree. intros interval Hiv.
  apply record_of_ok. intros a Ha. now apply Hret.
Qed.

Lemma analysis_of_ok_inv strategy data tickers intervals events report :
  data !! "tickers" = Some (DTickers tickers) ->
  data !! "intervals" = Some (DIntervals intervals) ->
  analysis_of strategy data = (events, Ok report) ->
  adapters_return data tickers intervals.
Proof.
  intros Ht Hi Hrun ticker interval a Hin Hiv Ha.
  rewrite analysis_of_shape,
    (strategy_analysis_loops _ _ _ _ (get_tickers_some _ _ Ht)
       (get_intervals_some _ _ Hi)) in Hrun.
  apply (record_of_ok_inv strategy); [|exact Ha].
  apply (pair_loops_ok_inv _ intervals tickers (init_analysis tickers));
    [now rewrite Hrun | exact Hin | exact Hiv].
Qed.

Lemma call_ok strategy state events report (show : bool) analyst_signals :
  analysis_of strategy (<["name" := DStr (strategy_name strategy)]> (st_data state))
    = (events, Ok report) ->
  st_metadata state !! "show_reasoning" = Some show ->
  st_data state !! "analyst_signals" = Some (DSignals analyst_signals) ->
  call strategy state
  = (with_data state (final_data strategy state analyst_signals report),
     (if show then events ++ [Shown (JDict report) (strategy_title strategy)]
      else events,
      Ok {| out_messages := [ {| content := json_dumps (JDict report);
                                 name := "technical_analyst_agent" |} ];
            out_data := final_data strategy state analyst_signals report |})).
Proof.
  intros Hrun Hshow Hsig. rewrite call_shape. unfold strategy_call.
  rewrite analysis_of_shape in Hrun. rewrite Hrun.
  cbn [with_data st_metadata st_data]. rewrite Hshow.
  rewrite lookup_insert_ne by discriminate. rewrite Hsig.
  reflexivity.
Qed.

Lemma call_ok_inv strategy state state' events out :
  call strategy state = (state', (events, Ok out)) ->
  exists events0 report (show : bool) analyst_signals,
    analysis_of strategy (<["name" := DStr (strategy_name strategy)]> (st_data state))
      = (events0, Ok report)
    /\ st_metadata state !! "show_reasoning" = Some show
    /\ st_data state !! "analyst_signals" = Some (DSignals analyst_signals).
Proof.
  rewrite call_shape. unfold strategy_call. rewrite <- analysis_of_shape.
  destruct (analysis_of strategy _) as [events0 [report|e]]; [|discriminate].
  cbn [with_data st_metadata st_data].
  destruct (st_metadata state !! "show_reasoning") as [show|]; [|discriminate].
  rewrite lookup_insert_ne by discriminate.
  destruct (st_data state !! "analyst_signals") as [[| | | |sigs]|];
    try discriminate.
  intros _. exists events0, report, show, sigs. auto.
Qed.

End Calls.

(** ** Reports *)

Section Reports.
Context {DataFrame RawMetrics : Type} `{!Collaborators DataFrame RawMetrics}.
Implicit Types (data : gmap string (DataVal DataFrame)).
Implicit Types (state : AgentState DataFrame).
Implicit Types (tickers : list string) (intervals : list Interval).

Lemma adapters_return_name data (x : DataVal DataFrame) tickers intervals :
  adapters_return (<["name" := x]> data) tickers intervals
  <-> adapters_return data tickers intervals.
Proof.
  unfold adapters_return.
  split; intros H ticker interval a Ht Hi Ha; specialize (H ticker interval a Ht Hi Ha);
    now rewrite get_frame_name in *.
Qed.

Lemma fill_agree (record record' : string -> Interval -> Traced (Event DataFrame) Json)
    ticker intervals : forall inner : gmap string Json,
  (forall interval, record ticker interval = record' ticker interval) ->
  fill record ticker intervals inner = fill record' ticker intervals inner.
Proof.
  intros inner Hagree. revert inner. unfold fill.
  induction intervals as [|i intervals IH]; intros inner; cbn [foldl]; [reflexivity|].
  rewrite Hagree. apply IH.
Qed.

Lemma report_built_name strategy data (x : DataVal DataFrame) tickers intervals report :
  report_built strategy (<["name" := x]> data) tickers intervals report
  <-> report_built strategy data tickers intervals report.
Proof.
  assert (Hfill : forall ticker,
            fill (record_of strategy (<["name" := x]> data)) ticker intervals ∅
            = fill (record_of strategy data) ticker intervals ∅).
  { intros ticker. apply fill_agree. intros i. apply record_of_name. }
  unfold report_built. split; intros H ticker; rewrite H;
    case_decide; now rewrite ?Hfill.
Qed.

Lemma report_built_keys strategy data tickers intervals report :
  report_built strategy data tickers intervals report ->
  exact_keys tickers intervals report.
Proof.
  intros Hbuilt. split.
  - apply set_eq. intros ticker.
    rewrite elem_of_dom, Hbuilt, elem_of_list_to_set.
    destruct (decide (ticker ∈ tickers)) as [Hin|Hnot].
    + split; [intros _; exact Hin | intros _; eauto].
    + split; [intros [? [=]] | intros Hin; now destruct Hnot].
  - intros ticker Hin. eexists. split.
    + rewrite Hbuilt. now rewrite decide_True.
    + rewrite fill_dom, dom_empty_L. set_solver.
Qed.

Lemma report_built_record strategy data tickers intervals report ticker interval :
  report_built strategy data tickers intervals report ->
  ticker ∈ tickers -> interval ∈ intervals ->
  record_at report ticker interval
  = Some (ok_or (JDict ∅) (record_of strategy data ticker interval).2).
Proof.
  intros Hbuilt Ht Hi. unfold record_at.
  rewrite Hbuilt, decide_True by exact Ht.
  now apply fill_lookup_in.
Qed.

(** A completed call, spelled out. *)
Lemma call_spec strategy state tickers intervals state' events out :
  st_data state !! "tickers" = Some (DTickers tickers) ->
  st_data state !! "intervals" = Some (DIntervals intervals) ->
  call strategy state = (state', (events, Ok out)) ->
  exists report (show : bool) analyst_signals,
    st_metadata state !! "show_reasoning" = Some show
    /\ st_data state !! "analyst_signals" = Some (DSignals analyst_signals)
    /\ adapters_return (st_data state) tickers intervals
    /\ report_built strategy (st_data state) tickers intervals report
    /\ state' = with_data state (final_data strategy state analyst_signals report)
    /\ events
       = (let calls :=
            flat_map (fun ticker =>
              flat_map (fun interval =>
                pair_calls (get_frame (st_data state) ticker interval))
              intervals) tickers in
          if show
          then calls ++ [Shown (JDict report) (strategy_title strategy)]
          else calls)
    /\ out = {| out_messages := [ {| content := json_dumps (JDict report);
                                     name := "technical_analyst_agent" |} ];
                out_data := final_data strategy state analyst_signals report |}.
Proof.
  intros Ht Hi Hcall.
  destruct (call_ok_inv _ _ _ _ _ Hcall)
    as (events0 & report & show & sigs & Hrun & Hshow & Hsig).
  set (data1 := <["name" := DStr (strategy_name strategy)]> (st_data state)) in *.
  assert (Ht1 : data1 !! "tickers" = Some (DTickers tickers))
    by (unfold data1; now rewrite lookup_insert_ne).
  assert (Hi1 : data1 !! "intervals" = Some (DIntervals intervals))
    by (unfold data1; now rewrite lookup_insert_ne).
  pose proof (analysis_of_ok_inv _ _ _ _ _ _ Ht1 Hi1 Hrun) as Hret.
  destruct (analysis_of_ok strategy data1 tickers intervals Ht1 Hi1 Hret)
    as (report' & Hrun' & Hbuilt).
  rewrite Hrun in Hrun'. injection Hrun' as Hev <-.
  rewrite (call_ok _ _ _ _ _ _ Hrun Hshow Hsig) in Hcall.
  injection Hcall as <- <- <-.
  exists report, show, sigs.
  split; [exact Hshow|]. split; [exact Hsig|].
  split; [now apply adapters_return_name in Hret|].
  split; [now apply report_built_name in Hbuilt|].
  split; [reflexivity|]. split; [|reflexivity].
  rewrite Hev. cbv zeta.
  assert (Hcalls :
    flat_map (fun ticker => flat_map (fun interval =>
       pair_calls (get_frame data1 ticker interval)) intervals) tickers
    = flat_map (fun ticker => flat_map (fun interval =>
       pair_calls (get_frame (st_data state) ticker interval)) intervals) tickers).
  { apply flat_map_agree. intros ticker _. apply flat_map_agree. intros i _.
    unfold data1. now rewrite get_frame_name. }
  now rewrite Hcalls.
Qed.

(** A call completes as soon as the state is well formed and the indicator
    functions return. *)
Lemma call_total strategy state tickers intervals (show : bool) analyst_signals :
  st_data state !! "tickers" = Some (DTickers tickers) ->
  st_data state !! "intervals" = Some (DIntervals intervals) ->
  st_metadata state !! "show_reasoning" = Some show ->
  st_data state !! "analyst_signals" = Some (DSignals analyst_signals) ->
  adapters_return (st_data state) tickers intervals ->
  exists state' events out, call strategy state = (state', (events, Ok out)).
Proof.
  intros Ht Hi Hshow Hsig Hret.
  set (data1 := <["name" := DStr (strategy_name strategy)]> (st_data state)).
  destruct (analysis_of_ok strategy data1 tickers intervals)
    as (report & Hrun & _).
  - unfold data1. now rewrite lookup_insert_ne.
  - unfold data1. now rewrite lookup_insert_ne.
  - now apply adapters_return_name.
  - rewrite (call_ok _ _ _ _ _ _ Hrun Hshow Hsig). eauto.
Qed.

Lemma stored_report_final strategy state analyst_signals report :
  stored_report (with_data state (final_data strategy state analyst_signals report))
  = Some (JDict report).
Proof.
  unfold stored_report, final_data. cbn [with_data st_data].
  rewrite lookup_insert_eq. apply lookup_insert_eq.
Qed.

End Reports.

(** ** Records *)

Section RecordShapes.
Context {DataFrame RawMetrics : Type} `{!Collaborators DataFrame RawMetrics}.
Implicit Types (data : gmap string (DataVal DataFrame)).
Implicit Types (state : AgentState DataFrame).
Implicit Types (tickers : list string) (intervals : list Interval).
Implicit Types (tr mo me vo s : SignalTriple RawMetrics).

(** A pair that completes: what was asked, what was fused, what is stored. *)
Lemma record_of_spec strategy data ticker interval :
  is_ok (record_of strategy data ticker interval).2 = true ->
  exists tr mo me vo combined,
    let df := get_frame data ticker interval in
    run_adapter Trend df = Ok tr
    /\ run_adapter Momentum df = Ok mo
    /\ run_adapter MeanReversion df = Ok me
    /\ run_adapter Volatility df = Ok vo
    /\ Fusion.weighted_signal_combination
         (labelled_signals strategy tr mo me vo) (strategy_weights strategy)
       = Ok combined
    /\ record_of strategy data ticker interval
       = (pair_calls df, Ok (report_record strategy combined tr mo me vo)).
Proof.
  intros (tr & mo & me & vo & Ht & Hm & Hr & Hv)%record_ok_inv.
  exists tr, mo, me, vo.
  destruct strategy; cbn [record_of labelled_signals strategy_weights report_record].
  - destruct (EMAStrategy_record_ok data ticker interval tr mo me vo Ht Hm Hr Hv)
      as (combined & Hc & Hrec). exists combined. auto 10.
  - destruct (RSIStrategy_record_ok data ticker interval tr mo me vo Ht Hm Hr Hv)
      as (combined & Hc & Hrec). exists combined. auto 10.
Qed.

Lemma label_detail_fields s :
  exists fields,
    label_detail s = JDict fields
    /\ dom fields = ({["signal"; "confidence"; "metrics"]} : gset string)
    /\ fields !! "signal" = Some (JStr (direction_name (signal s)))
    /\ fields !! "confidence"
       = Some (JInt (py_round (float_mul (confidence s) (Qc_of_Z 100))))
    /\ fields !! "metrics" = Some (normalize_pandas (metrics s)).
Proof.
  eexists. split; [reflexivity|]. split; [|repeat split; reflexivity].
  unfold dict_literal. cbn [list_to_map foldr fst snd].
  rewrite !dom_insert_L, dom_empty_L. set_solver.
Qed.

Lemma label_detail_shape s :
  (0 <= confidence s)%Qc -> (confidence s <= 1)%Qc ->
  is_label_detail (label_detail s).
Proof.
  intros H0 H1.
  destruct (label_detail_fields s) as (fields & -> & Hdom & Hsig & Hconf & _).
  exists fields. split; [reflexivity|]. split; [exact Hdom|]. split.
  - eexists. split; [exact Hsig|]. now eexists.
  - eexists. split; [exact Hconf|]. eexists. split; [reflexivity|].
    now apply percent_range.
Qed.

Lemma report_record_fields strategy combined tr mo me vo :
  exists fields details,
    report_record strategy combined tr mo me vo = JDict fields
    /\ dom fields
       = ({["signal"; "confidence"; "strategy_signals"]} : gset string)
         ∪ extra_fields strategy
    /\ fields !! "signal"
       = Some (JStr (direction_name (consensus_signal combined)))
    /\ fields !! "confidence"
       = Some (JInt (py_round (float_mul (consensus_confidence combined)
                                 (Qc_of_Z 100))))
    /\ fields !! "strategy_signals" = Some (JDict details)
    /\ details
       = dict_literal
           ((fun entry => (entry.1, label_detail entry.2))
              <$> labelled_signals strategy tr mo me vo).
Proof.
  destruct strategy; cbn [report_record labelled_signals extra_fields];
    unfold EMA_report_record, RSI_report_record;
    eexists; eexists; (split; [reflexivity|]);
    (split; [|repeat split; reflexivity]);
    unfold dict_literal at 1; cbn [list_to_map foldr fst snd];
    rewrite !dom_insert_L, dom_empty_L; set_solver.
Qed.

Lemma labelled_signals_from strategy tr mo me vo label s :
  (label, s) ∈ labelled_signals strategy tr mo me vo ->
  s = tr \/ s = mo \/ s = me \/ s = vo.
Proof.
  destruct strategy; cbn [labelled_signals]; intros Hin;
    repeat (apply elem_of_cons in Hin as [[= _ ->]|Hin]; [tauto|]);
    now apply elem_of_nil in Hin.
Qed.

Lemma report_record_is_record strategy combined tr mo me vo :
  (0 <= consensus_confidence combined)%Qc /\ (consensus_confidence combined <= 1)%Qc ->
  (forall s, s = tr \/ s = mo \/ s = me \/ s = vo ->
     (0 <= confidence s)%Qc /\ (confidence s <= 1)%Qc) ->
  is_analysis_record (extra_fields strategy)
    (report_record strategy combined tr mo me vo).
Proof.
  intros [Hc0 Hc1] Hrange.
  destruct (report_record_fields strategy combined tr mo me vo)
    as (fields & details & -> & Hdom & Hsig & Hconf & Hdet & ->).
  exists fields. eexists. split; [reflexivity|]. split; [exact Hdom|].
  split; [eexists; split; [exact Hsig | now eexists]|].
  split.
  { eexists. split; [exact Hconf|]. eexists. split; [reflexivity|].
    now apply percent_range. }
  split; [exact Hdet|].
  intros label detail Hlook. unfold dict_literal in Hlook.
  apply elem_of_list_to_map_2 in Hlook.
  apply list_elem_of_fmap in Hlook as ([label' s] & [= -> ->] & Hin).
  apply labelled_signals_from in Hin.
  destruct (Hrange s Hin). now apply label_detail_shape.
Qed.

(** The record of the EMA strategy always carries the periods. *)
Lemma EMA_record_extra_field combined tr mo me vo :
  ~ is_analysis_record ∅ (EMA_report_record combined tr mo me vo).
Proof.
  intros (fields & details & Heq & Hdom & _).
  destruct (report_record_fields EMA combined tr mo me vo)
    as (fields' & _ & Heq' & Hdom' & _).
  cbn [report_record extra_fields] in *. rewrite Heq in Heq'.
  injection Heq' as <-. rewrite Hdom in Hdom'.
  assert (Hin : "ema_periods" ∈ ({["signal"; "confidence"; "strategy_signals"]} ∪ ∅ : gset string))
    by (rewrite Hdom'; set_solver).
  set_solver.
Qed.

Lemma triple_of_run tr mo me vo (df : DataVal DataFrame) a s :
  run_adapter Trend df = Ok tr ->
  run_adapter Momentum df = Ok mo ->
  run_adapter MeanReversion df = Ok me ->
  run_adapter Volatility df = Ok vo ->
  triple_of tr mo me vo a = Some s ->
  run_adapter a df = Ok s.
Proof. intros H1 H2 H3 H4. destruct a; intros [= <-]; assumption. Qed.

(** Label by label: the triple handed to the fusion and the detail stored
    come from the indicator function behind the label. *)
Lemma record_details strategy combined tr mo me vo :
  exists fields details,
    report_record strategy combined tr mo me vo = JDict fields
    /\ fields !! "signal"
       = Some (JStr (direction_name (consensus_signal combined)))
    /\ fields !! "confidence"
       = Some (JInt (py_round (float_mul (consensus_confidence combined)
                                 (Qc_of_Z 100))))
    /\ fields !! "strategy_signals" = Some (JDict details)
    /\ dom details = list_to_set (label_adapters strategy).*1
    /\ forall label a, (label, a) ∈ label_adapters strategy ->
         exists s,
           triple_of tr mo me vo a = Some s
           /\ (label, s) ∈ labelled_signals strategy tr mo me vo
           /\ details !! label = Some (label_detail s).
Proof.
  destruct (report_record_fields strategy combined tr mo me vo)
    as (fields & details & Heq & _ & Hsig & Hconf & Hdet & ->).
  exists fields. eexists. split; [exact Heq|]. split; [exact Hsig|].
  split; [exact Hconf|]. split; [exact Hdet|].
  split.
  - destruct strategy; cbn [labelled_signals label_adapters];
      unfold dict_literal; cbn [fmap list_fmap list_to_map foldr fst snd list_to_set];
      rewrite !dom_insert_L, dom_empty_L; reflexivity.
  - intros label a Hin.
    destruct strategy; cbn [labelled_signals label_adapters] in *;
      repeat (apply elem_of_cons in Hin as [[= -> ->]|Hin];
              [eexists; split; [reflexivity|]; split; [set_solver | reflexivity]|]);
      now apply elem_of_nil in Hin.
Qed.

Lemma percentage_holds (c : Qc) :
  (0 <= c)%Qc -> (c <= 1)%Qc ->
  holds_percentage c (Some (JInt (py_round (float_mul c (Qc_of_Z 100))))).
Proof.
  intros H0 H1. eexists. split; [reflexivity|]. split; [reflexivity|].
  split; [now apply percent_range|].
  destruct (py_round_nearest (float_mul c (Qc_of_Z 100))) as [Hlo Hhi].
  destruct (float_mul_100_near c H0 H1) as [Hlo' Hhi']. auto.
Qed.

Lemma percent_of_0_5049 :
  py_round (float_mul (double 5049 10000) (Qc_of_Z 100)) = 50%Z.
Proof. vm_compute. reflexivity. Qed.

Lemma percent_of_0_995 :
  py_round (float_mul (double 995 1000) (Qc_of_Z 100)) = 100%Z.
Proof. vm_compute. reflexivity. Qed.

End RecordShapes.


Section FusionOne.
Context {M : Type}.
Implicit Types (signals : list (string * SignalTriple M)).
Implicit Types (weights : gmap string Qc).

Lemma weighted_sum_unanimous (d : SignalDirection) (c : Qc) signals weights :
  (forall entry, entry ∈ signals ->
     signal entry.2 = d /\ confidence entry.2 = c) ->
  Fusion.weighted_sum weights signals
  = (c * Fusion.sign d * Fusion.total_weight weights signals)%Qc.
Proof.
  induction signals as [|entry signals IH]; intros Hall;
    cbn [Fusion.weighted_sum Fusion.total_weight].
  - ring.
  - rewrite IH by (intros entry' Hin; apply Hall; now right).
    destruct (Hall entry) as [Hd Hc]; [left|].
    unfold Fusion.contribution. rewrite Hd, Hc. ring.
Qed.

(** Signals that agree come back as they went in: when every label reports
    the direction [d] with the confidence [c], the consensus is [d] with the
    confidence [c] itself, whatever the labels and the weights.  The fusion
    normalises, it does not round. *)
Lemma fuse_unanimous (d : SignalDirection) (c : Qc) signals weights :
  (forall entry, entry ∈ signals ->
     signal entry.2 = d /\ confidence entry.2 = c) ->
  Fusion.total_weight weights signals <> 0%Qc ->
  d <> neutral -> (0 < c)%Qc -> (c <= 1)%Qc ->
  Fusion.weighted_signal_combination signals weights
  = Ok {| consensus_signal := d; consensus_confidence := c |}.
Proof.
  intros Hall HW Hd Hc Hc1.
  unfold Fusion.weighted_signal_combination, Fusion.fuse.
  rewrite (weighted_sum_unanimous d c) by exact Hall.
  apply Qc_is_zero_neq in HW as HW'. rewrite HW'.
  replace (c * Fusion.sign d * Fusion.total_weight weights signals
           / Fusion.total_weight weights signals)%Qc
    with (c * Fusion.sign d)%Qc by (field; exact HW).
  assert (Hc0 : (0 <= c)%Qc) by now apply Qclt_le_weak.
  assert (Hclamp : Fusion.clamp01 c = c).
  { unfold Fusion.clamp01.
    apply Qc_ltb_ge in Hc0 as ->. apply Qc_ltb_ge in Hc1 as ->. reflexivity. }
  destruct d; [| |congruence]; cbn [Fusion.sign].
  - rewrite Qcmult_1_r, (Qcabs_pos _ Hc0), Hclamp.
    unfold Fusion.decide_direction. apply Qc_ltb_lt in Hc as ->. reflexivity.
  - replace (c * - 1)%Qc with (- c)%Qc by ring.
    rewrite Qcabs_opp, (Qcabs_pos _ Hc0), Hclamp.
    unfold Fusion.decide_direction.
    assert (Hneg : (- c < 0)%Qc).
    { apply (Qcplus_lt_mono_l _ _ (- c)%Qc) in Hc.
      replace (- c + 0)%Qc with (- c)%Qc in Hc by ring.
      now replace (- c + c)%Qc with 0%Qc in Hc by ring. }
    assert (H1 : Qc_ltb 0 (- c) = false)
      by (apply Qc_ltb_ge; now apply Qclt_le_weak).
    rewrite H1.
    replace (- 0)%Qc with 0%Qc by ring.
    apply Qc_ltb_lt in Hneg as ->. reflexivity.
Qed.

End FusionOne.


(** * The claims *)

Section RunnerClaims.
Context {DataFrame RawMetrics : Type} `{!Collaborators DataFrame RawMetrics}.
Implicit Types (data : gmap string (DataVal DataFrame)).
Implicit Types (state : AgentState DataFrame).
Implicit Types (tickers : list string) (intervals : list Interval).

(** C1.  Report completeness.  Let the data of the input state carry the
    ticker list [tickers] and the interval list [intervals].  Whenever
    [__call__] of either strategy returns, the report it has stored has
    exactly the tickers as outer keys and, under every ticker, exactly the
    interval labels as inner keys; whether the frame of a pair is present in
    the data plays no role.  And [__call__] does return once the state has
    its ["show_reasoning"] flag and its ["analyst_signals"] dict and the
    indicator functions return on the frames of the requested pairs. *)
Theorem report_completeness strategy state tickers intervals :
  st_data state !! "tickers" = Some (DTickers tickers) ->
  st_data state !! "intervals" = Some (DIntervals intervals) ->
  (forall state' events out,
     call strategy state = (state', (events, Ok out)) ->
     exists report,
       stored_report state' = Some (JDict report)
       /\ exact_keys tickers intervals report)
  /\ (is_Some (st_metadata state !! "show_reasoning") ->
      (exists analyst_signals,
         st_data state !! "analyst_signals" = Some (DSignals analyst_signals)) ->
      adapters_return (st_data state) tickers intervals ->
      exists state' events out report,
        call strategy state = (state', (events, Ok out))
        /\ stored_report state' = Some (JDict report)
        /\ exact_keys tickers intervals report).
Proof.
  intros Ht Hi.
  assert (Hret : forall state' events out,
            call strategy state = (state', (events, Ok out)) ->
            exists report,
              stored_report state' = Some (JDict report)
              /\ exact_keys tickers intervals report).
  { intros state' events out Hcall.
    destruct (call_spec _ _ _ _ _ _ _ Ht Hi Hcall)
      as (report & show & sigs & _ & _ & _ & Hbuilt & -> & _).
    exists report. split; [apply stored_report_final|].
    exact (report_built_keys _ _ _ _ _ Hbuilt). }
  split; [exact Hret|].
  intros [show Hshow] [sigs Hsig] Hadapters.
  destruct (call_total strategy state tickers intervals show sigs
              Ht Hi Hshow Hsig Hadapters) as (state' & events & out & Hcall).
  destruct (Hret _ _ _ Hcall) as (report & Hstored & Hkeys).
  exists state', events, out, report. auto.
Qed.

(** A call that raises has written the name of the strategy and nothing
    else. *)
Lemma call_raise_state strategy state state' events e :
  call strategy state = (state', (events, Raise e)) ->
  state' = with_data state
             (<["name" := DStr (strategy_name strategy)]> (st_data state)).
Proof.
  rewrite call_shape. unfold strategy_call. cbv zeta.
  destruct (strategy_analysis _ _) as [events0 [report|e0]]; [|now intros [= <- _ _]].
  cbn [with_data st_metadata st_data].
  destruct (st_metadata state !! "show_reasoning") as [show|];
    [|now intros [= <- _ _]].
  destruct (_ !! "analyst_signals") as [[| | | |sigs]|];
    now intros [= <- _ _].
Qed.

(** C2, as amended.  [__call__] writes into the shared state, in two
    places and nowhere else: it sets [state['data']['name']] to the name of
    the strategy (before anything can raise) and, when it completes, it sets
    [state['data']['analyst_signals']['technical_analyst_agent']].  The
    messages, the metadata, every other key of the data and every other
    entry of ["analyst_signals"] are left as they were; the dict it returns
    under ["data"] is the shared one. *)
Theorem call_frame strategy state :
  st_messages (call strategy state).1 = st_messages state
  /\ st_metadata (call strategy state).1 = st_metadata state
  /\ st_data (call strategy state).1 !! "name"
     = Some (DStr (strategy_name strategy))
  /\ (forall key, key <> "name" -> key <> "analyst_signals" ->
        st_data (call strategy state).1 !! key = st_data state !! key)
  /\ (forall out, (call strategy state).2.2 = Ok out ->
        out_data out = st_data (call strategy state).1
        /\ exists analyst_signals report,
             st_data state !! "analyst_signals" = Some (DSignals analyst_signals)
             /\ st_data (call strategy state).1 !! "analyst_signals"
                = Some (DSignals (<["technical_analyst_agent" := JDict report]>
                                    analyst_signals)))
  /\ (forall e, (call strategy state).2.2 = Raise e ->
        st_data (call strategy state).1 !! "analyst_signals"
        = st_data state !! "analyst_signals").
Proof.
  destruct (call strategy state) as [state' [events [out|e]]] eqn:Hcall;
    cbn [fst snd].
  - destruct (call_ok_inv _ _ _ _ _ Hcall)
      as (ev & report & show & sigs & Hrun & Hshow & Hsig).
    rewrite (call_ok _ _ _ _ _ _ Hrun Hshow Hsig) in Hcall.
    injection Hcall as <- _ <-.
    cbn [with_data st_messages st_metadata st_data]. unfold final_data.
    split; [reflexivity|]. split; [reflexivity|].
    split; [rewrite lookup_insert_ne by discriminate; apply lookup_insert_eq|].
    split; [intros key Hk Hk'; now rewrite !lookup_insert_ne|].
    split; [|discriminate].
    intros out' [= <-]. split; [reflexivity|].
    exists sigs, report. split; [exact Hsig | apply lookup_insert_eq].
  - rewrite (call_raise_state _ _ _ _ _ Hcall).
    cbn [with_data st_messages st_metadata st_data].
    split; [reflexivity|]. split; [reflexivity|].
    split; [apply lookup_insert_eq|].
    split; [intros key Hk _; now rewrite lookup_insert_ne|].
    split; [discriminate|].
    intros _ _. now rewrite lookup_insert_ne.
Qed.

End RunnerClaims.

Section RecordClaims.
Context {DataFrame RawMetrics : Type} `{!Collaborators DataFrame RawMetrics}.
Implicit Types (data : gmap string (DataVal DataFrame)).
Implicit Types (state : AgentState DataFrame).
Implicit Types (tickers : list string) (intervals : list Interval).
Implicit Types (tr mo me vo s : SignalTriple RawMetrics).

(** The record a completed call has stored for a requested pair. *)
Lemma call_record strategy state tickers intervals state' events out
    ticker interval :
  st_data state !! "tickers" = Some (DTickers tickers) ->
  st_data state !! "intervals" = Some (DIntervals intervals) ->
  call strategy state = (state', (events, Ok out)) ->
  ticker ∈ tickers -> interval ∈ intervals ->
  exists report tr mo me vo combined,
    let df := get_frame (st_data state) ticker interval in
    stored_report state' = Some (JDict report)
    /\ run_adapter Trend df = Ok tr
    /\ run_adapter Momentum df = Ok mo
    /\ run_adapter MeanReversion df = Ok me
    /\ run_adapter Volatility df = Ok vo
    /\ Fusion.weighted_signal_combination
         (labelled_signals strategy tr mo me vo) (strategy_weights strategy)
       = Ok combined
    /\ record_at report ticker interval
       = Some (report_record strategy combined tr mo me vo).
Proof.
  intros Ht Hi Hcall Hin Hiv.
  destruct (call_spec _ _ _ _ _ _ _ Ht Hi Hcall)
    as (report & show & sigs & _ & _ & Hret & Hbuilt & -> & _).
  assert (Hok : is_ok (record_of strategy (st_data state) ticker interval).2 = true).
  { apply record_of_ok. intros a Ha. now apply Hret. }
  destruct (record_of_spec _ _ _ _ Hok)
    as (tr & mo & me & vo & combined & H1 & H2 & H3 & H4 & Hc & Hrec).
  exists report, tr, mo, me, vo, combined. cbv zeta.
  split; [apply stored_report_final|].
  do 5 (split; [assumption|]).
  rewrite (report_built_record _ _ _ _ _ _ _ Hbuilt Hin Hiv), Hrec.
  reflexivity.
Qed.

(** C3, as amended.  For every requested pair the stored record is a dict
    with a signal direction, an integer confidence between 0 and 100 and the
    per-label details, each detail holding exactly a signal, an integer
    confidence between 0 and 100 and the metrics.  The record of the RSI
    strategy has no other field; the record of the EMA strategy has one more,
    ["ema_periods"].  The bounds on the confidences rest on the indicator
    functions returning confidences in [0, 1]. *)
Theorem record_shape strategy state tickers intervals state' events out :
  st_data state !! "tickers" = Some (DTickers tickers) ->
  st_data state !! "intervals" = Some (DIntervals intervals) ->
  adapters_in_range ->
  call strategy state = (state', (events, Ok out)) ->
  exists report,
    stored_report state' = Some (JDict report)
    /\ forall ticker interval,
         ticker ∈ tickers -> interval ∈ intervals ->
         exists record,
           record_at report ticker interval = Some record
           /\ is_analysis_record (extra_fields strategy) record.
Proof.
  intros Ht Hi Hrange Hcall.
  destruct (call_spec _ _ _ _ _ _ _ Ht Hi Hcall)
    as (report & _ & sigs & _ & _ & _ & _ & Hstate & _).
  exists report. split; [subst state'; apply stored_report_final|].
  intros ticker interval Hin Hiv.
  destruct (call_record _ _ _ _ _ _ _ _ _ Ht Hi Hcall Hin Hiv)
    as (report' & tr & mo & me & vo & combined & Hst & H1 & H2 & H3 & H4 & Hc & Hrec).
  assert (report' = report) as ->.
  { subst state'. rewrite stored_report_final in Hst. now injection Hst. }
  eexists. split; [exact Hrec|].
  apply report_record_is_record.
  - exact (fuse_confidence_range _ _ _ _ Hc).
  - intros s [Hs|[Hs|[Hs|Hs]]]; subst s; eapply Hrange; eassumption.
Qed.

(** The report a completed call has stored is the one the strategy
    computes on the state it was called on. *)
Lemma call_computed_report strategy state tickers intervals state' events out :
  st_data state !! "tickers" = Some (DTickers tickers) ->
  st_data state !! "intervals" = Some (DIntervals intervals) ->
  call strategy state = (state', (events, Ok out)) ->
  exists report,
    stored_report state' = Some (JDict report)
    /\ computed_report strategy state tickers intervals report.
Proof.
  intros Ht Hi Hcall.
  destruct (call_spec _ _ _ _ _ _ _ Ht Hi Hcall)
    as (report & _ & sigs & _ & _ & _ & Hbuilt & Hstate & _).
  assert (Hst : stored_report state' = Some (JDict report))
    by (subst state'; apply stored_report_final).
  exists report. split; [exact Hst|].
  split; [exact (report_built_keys _ _ _ _ _ Hbuilt)|].
  intros ticker interval Hin Hiv.
  destruct (call_record _ _ _ _ _ _ _ _ _ Ht Hi Hcall Hin Hiv)
    as (report' & tr & mo & me & vo & combined & Hst' & H1 & H2 & H3 & H4 & Hc & Hrec).
  rewrite Hst in Hst'. injection Hst' as <-.
  exists tr, mo, me, vo, combined. cbv zeta. auto 10.
Qed.

(** C4.  Rounding boundary.  In the record a completed call has stored for
    a requested pair, the fused confidence [c] and the confidence [c] of
    every label are written as [round(c * 100)]: an integer between 0 and 100,
    at most one half away from the float [c * 100] (itself within [2^-47] of
    the exact product); a fused confidence of 0.5049 is written as 50, one of
    0.995 as 100.  The rounding happens when the record is assembled and not
    before.  The fusion is handed the triples as the indicator functions
    returned them, and the fusion does not round either: signals that agree on
    a direction with a confidence [c] fuse to the confidence [c] itself.  The
    bounds rest on the indicator functions returning confidences in
    [0, 1]. *)
Theorem confidence_rounded_at_the_boundary strategy state tickers intervals
    state' events out ticker interval :
  st_data state !! "tickers" = Some (DTickers tickers) ->
  st_data state !! "intervals" = Some (DIntervals intervals) ->
  adapters_in_range ->
  call strategy state = (state', (events, Ok out)) ->
  ticker ∈ tickers -> interval ∈ intervals ->
  (exists report fields details tr mo me vo combined,
     let df := get_frame (st_data state) ticker interval in
     stored_report state' = Some (JDict report)
     /\ record_at report ticker interval = Some (JDict fields)
     /\ run_adapter Trend df = Ok tr
     /\ run_adapter Momentum df = Ok mo
     /\ run_adapter MeanReversion df = Ok me
     /\ run_adapter Volatility df = Ok vo
     /\ Fusion.weighted_signal_combination
          (labelled_signals strategy tr mo me vo) (strategy_weights strategy)
        = Ok combined
     /\ holds_percentage (consensus_confidence combined) (fields !! "confidence")
     /\ (consensus_confidence combined = double 5049 10000 ->
         fields !! "confidence" = Some (JInt 50))
     /\ (consensus_confidence combined = double 995 1000 ->
         fields !! "confidence" = Some (JInt 100))
     /\ fields !! "strategy_signals" = Some (JDict details)
     /\ forall label a, (label, a) ∈ label_adapters strategy ->
          exists s detail,
            run_adapter a df = Ok s
            /\ (label, s) ∈ labelled_signals strategy tr mo me vo
            /\ details !! label = Some (JDict detail)
            /\ holds_percentage (confidence s) (detail !! "confidence"))
  /\ (forall (signals : list (string * SignalTriple RawMetrics))
        (weights : gmap string Qc) (d : SignalDirection) (c : Qc),
        (forall entry, entry ∈ signals ->
           signal entry.2 = d /\ confidence entry.2 = c) ->
        Fusion.total_weight weights signals <> 0%Qc ->
        d <> neutral -> (0 < c)%Qc -> (c <= 1)%Qc ->
        Fusion.weighted_signal_combination signals weights
        = Ok {| consensus_signal := d; consensus_confidence := c |}).
Proof.
  intros Ht Hi Hrange Hcall Hin Hiv.
  split; [|intros signals weights d c; apply fuse_unanimous].
  destruct (call_record _ _ _ _ _ _ _ _ _ Ht Hi Hcall Hin Hiv)
    as (report & tr & mo & me & vo & combined & Hst & H1 & H2 & H3 & H4 & Hc & Hrec).
  cbv zeta in H1, H2, H3, H4.
  destruct (record_details strategy combined tr mo me vo)
    as (fields & details & Heq & _ & Hconf & Hdet & _ & Hlabels).
  exists report, fields, details, tr, mo, me, vo, combined. cbv zeta.
  split; [exact Hst|]. split; [now rewrite Hrec, Heq|].
  do 5 (split; [assumption|]).
  rewrite Hconf.
  split.
  { destruct (fuse_confidence_range _ _ _ _ Hc). now apply percentage_holds. }
  split; [intros ->; now rewrite percent_of_0_5049|].
  split; [intros ->; now rewrite percent_of_0_995|].
  split; [exact Hdet|].
  intros label a Hla.
  destruct (Hlabels label a Hla) as (s & Hs & Hls & Hlook).
  pose proof (triple_of_run _ _ _ _ _ _ _ H1 H2 H3 H4 Hs) as Hrun.
  destruct (label_detail_fields s) as (detail & Hd & _ & _ & Hdconf & _).
  exists s, detail. split; [exact Hrun|]. split; [exact Hls|].
  split; [now rewrite Hlook, Hd|].
  rewrite Hdconf. destruct (Hrange _ _ _ Hrun). now apply percentage_holds.
Qed.

Lemma pair_calls_once (df : DataVal DataFrame) (a : Adapter) :
  invocations a (pair_calls df) = if decide (a ∈ adapters_used) then 1 else 0.
Proof. destruct a; reflexivity. Qed.

(** C5.  One call per indicator function and pair.  A completed call has
    logged, pair after pair in loop order, one invocation of each of the four
    indicator functions on the frame of the pair, and nothing else but the
    optional diagnostic print.  In the record of a pair the detail of a label
    holds the signal, the rounded confidence and the normalised metrics of
    the triple that the one call of the function behind the label returned;
    two labels backed by the same function (["ema_crossovers"] and
    ["multi_timeframe"] for EMA, ["rsi_trend_strength"] and ["momentum"] for
    RSI) therefore carry the very same detail. *)
Theorem adapters_invoked_once strategy state tickers intervals state' events out :
  st_data state !! "tickers" = Some (DTickers tickers) ->
  st_data state !! "intervals" = Some (DIntervals intervals) ->
  call strategy state = (state', (events, Ok out)) ->
  (exists printed : list (Event DataFrame),
     events
     = flat_map (fun ticker =>
         flat_map (fun interval =>
           pair_calls (get_frame (st_data state) ticker interval))
         intervals) tickers ++ printed
     /\ forall a, invocations a printed = 0)
  /\ (forall (df : DataVal DataFrame) a,
        a ∈ adapters_used -> invocations a (pair_calls df) = 1)
  /\ exists report,
       stored_report state' = Some (JDict report)
       /\ forall ticker interval,
            ticker ∈ tickers -> interval ∈ intervals ->
            exists fields details,
              record_at report ticker interval = Some (JDict fields)
              /\ fields !! "strategy_signals" = Some (JDict details)
              /\ (forall label a, (label, a) ∈ label_adapters strategy ->
                    exists s detail,
                      run_adapter a (get_frame (st_data state) ticker interval)
                      = Ok s
                      /\ details !! label = Some (JDict detail)
                      /\ detail !! "signal"
                         = Some (JStr (direction_name (signal s)))
                      /\ detail !! "confidence"
                         = Some (JInt (py_round (float_mul (confidence s)
                                                   (Qc_of_Z 100))))
                      /\ detail !! "metrics"
                         = Some (normalize_pandas (metrics s)))
              /\ (forall label label' a,
                    (label, a) ∈ label_adapters strategy ->
                    (label', a) ∈ label_adapters strategy ->
                    is_Some (details !! label)
                    /\ details !! label = details !! label').
Proof.
  intros Ht Hi Hcall.
  destruct (call_spec _ _ _ _ _ _ _ Ht Hi Hcall)
    as (report & show & sigs & _ & _ & _ & _ & Hstate & Hev & _).
  split.
  { rewrite Hev. cbv zeta. destruct show.
    - eexists. split; [reflexivity|]. intros a. reflexivity.
    - exists []. split; [now rewrite app_nil_r|]. intros a. reflexivity. }
  split.
  { intros df a Ha. rewrite pair_calls_once.
    now rewrite (decide_True (P := a ∈ adapters_used)). }
  exists report. split; [subst state'; apply stored_report_final|].
  intros ticker interval Hin Hiv.
  destruct (call_record _ _ _ _ _ _ _ _ _ Ht Hi Hcall Hin Hiv)
    as (report' & tr & mo & me & vo & combined & Hst & H1 & H2 & H3 & H4 & _ & Hrec).
  cbv zeta in H1, H2, H3, H4.
  assert (report' = report) as ->.
  { subst state'. rewrite stored_report_final in Hst. now injection Hst. }
  destruct (record_details strategy combined tr mo me vo)
    as (fields & details & Heq & _ & _ & Hdet & _ & Hlabels).
  exists fields, details. split; [now rewrite Hrec, Heq|]. split; [exact Hdet|].
  split.
  - intros label a Hla.
    destruct (Hlabels label a Hla) as (s & Hs & _ & Hlook).
    destruct (label_detail_fields s) as (detail & Hd & _ & Hsig & Hconf & Hmet).
    exists s, detail.
    split; [exact (triple_of_run _ _ _ _ _ _ _ H1 H2 H3 H4 Hs)|].
    split; [now rewrite Hlook, Hd|]. auto.
  - intros label label' a Hla Hla'.
    destruct (Hlabels label a Hla) as (s & Hs & _ & Hlook).
    destruct (Hlabels label' a Hla') as (s' & Hs' & _ & Hlook').
    rewrite Hs in Hs'. injection Hs' as <-.
    rewrite Hlook, Hlook'. split; [eexists|]; reflexivity.
Qed.

(** Four neutral signals of confidence zero fuse to neutral, rounded
    confidence zero. *)
Lemma fusion_all_neutral strategy (m1 m2 m3 m4 : RawMetrics) combined :
  Fusion.weighted_signal_combination
    (labelled_signals strategy
       (mkTriple neutral 0%Qc m1) (mkTriple neutral 0%Qc m2)
       (mkTriple neutral 0%Qc m3) (mkTriple neutral 0%Qc m4))
    (strategy_weights strategy) = Ok combined ->
  consensus_signal combined = neutral
  /\ py_round (float_mul (consensus_confidence combined) (Qc_of_Z 100)) = 0%Z.
Proof.
  unfold Fusion.weighted_signal_combination, Fusion.fuse.
  destruct strategy; cbn [labelled_signals strategy_weights];
    match goal with
    | |- context [Qc_is_zero ?W] =>
        assert (Qc_is_zero W = false) as -> by (vm_compute; reflexivity)
    end;
    intros [= <-]; split; vm_compute; reflexivity.
Qed.

(** C6.  Missing data.  Let the frame of a requested pair be absent from
    the data.  The strategy does not raise on it: it hands [pd.DataFrame()]
    to each indicator function.  With indicator functions that answer the
    empty frame by a neutral triple of confidence zero (and that return on the
    other requested pairs), the call completes and the report holds a record
    for the pair, neutral with confidence 0. *)
Theorem missing_series_still_reported strategy state tickers intervals
    (show : bool) analyst_signals ticker interval :
  st_data state !! "tickers" = Some (DTickers tickers) ->
  st_data state !! "intervals" = Some (DIntervals intervals) ->
  st_metadata state !! "show_reasoning" = Some show ->
  st_data state !! "analyst_signals" = Some (DSignals analyst_signals) ->
  ticker ∈ tickers -> interval ∈ intervals ->
  st_data state !! (ticker +:+ "_" +:+ value interval) = None ->
  (forall a, a ∈ adapters_used ->
     exists m, run_adapter a (DFrame empty_frame) = Ok (mkTriple neutral 0%Qc m)) ->
  adapters_return (st_data state) tickers intervals ->
  get_frame (st_data state) ticker interval = DFrame empty_frame
  /\ exists state' events out report fields,
       call strategy state = (state', (events, Ok out))
       /\ stored_report state' = Some (JDict report)
       /\ record_at report ticker interval = Some (JDict fields)
       /\ fields !! "signal" = Some (JStr "neutral")
       /\ fields !! "confidence" = Some (JInt 0).
Proof.
  intros Ht Hi Hshow Hsig Hin Hiv Hnone Hempty Hret.
  assert (Hframe : get_frame (st_data state) ticker interval = DFrame empty_frame)
    by (unfold get_frame; now rewrite Hnone).
  split; [exact Hframe|].
  destruct (call_total strategy state tickers intervals show analyst_signals
              Ht Hi Hshow Hsig Hret) as (state' & events & out & Hcall).
  destruct (call_record _ _ _ _ _ _ _ _ _ Ht Hi Hcall Hin Hiv)
    as (report & tr & mo & me & vo & combined
        & Hst & H1 & H2 & H3 & H4 & Hc & Hrec).
  cbv zeta in H1, H2, H3, H4. rewrite Hframe in H1, H2, H3, H4.
  destruct (Hempty Trend) as [m1 E1]; [unfold adapters_used; set_solver|].
  destruct (Hempty Momentum) as [m2 E2]; [unfold adapters_used; set_solver|].
  destruct (Hempty MeanReversion) as [m3 E3]; [unfold adapters_used; set_solver|].
  destruct (Hempty Volatility) as [m4 E4]; [unfold adapters_used; set_solver|].
  rewrite E1 in H1. rewrite E2 in H2. rewrite E3 in H3. rewrite E4 in H4.
  injection H1 as <-. injection H2 as <-. injection H3 as <-. injection H4 as <-.
  destruct (fusion_all_neutral _ _ _ _ _ _ Hc) as [Hdir Hconf].
  destruct (report_record_fields strategy combined
              (mkTriple neutral 0%Qc m1) (mkTriple neutral 0%Qc m2)
              (mkTriple neutral 0%Qc m3) (mkTriple neutral 0%Qc m4))
    as (fields & details & Heq & _ & Hfsig & Hfconf & _).
  exists state', events, out, report, fields.
  split; [exact Hcall|]. split; [exact Hst|].
  split; [now rewrite Hrec, Heq|].
  rewrite Hfsig, Hfconf, Hdir, Hconf. auto.
Qed.

End RecordClaims.

Section SlotClaims.
Context {DataFrame RawMetrics : Type} `{!Collaborators DataFrame RawMetrics}.
Implicit Types (data : gmap string (DataVal DataFrame)).
Implicit Types (state : AgentState DataFrame).
Implicit Types (tickers : list string) (intervals : list Interval).

(** C10.  Both strategies store the finished report under
    [state['data']['analyst_signals']['technical_analyst_agent']] and name
    their message ["technical_analyst_agent"]; the content of the message is
    [json.dumps] of exactly the stored report.  When a second strategy runs
    on the state the first one left, each run stores the report it has
    computed itself, from the indicator functions on the frames of the state
    it was called on; after the second run the entry holds the report of the
    second, and ["analyst_signals"] is the dict the first run found with that
    one entry set: of the first report nothing remains. *)
Theorem same_slot_last_writer_wins first second state tickers intervals
    state1 state2 events1 events2 out1 out2 :
  st_data state !! "tickers" = Some (DTickers tickers) ->
  st_data state !! "intervals" = Some (DIntervals intervals) ->
  call first state = (state1, (events1, Ok out1)) ->
  call second state1 = (state2, (events2, Ok out2)) ->
  exists analyst_signals report1 report2,
    st_data state !! "analyst_signals" = Some (DSignals analyst_signals)
    /\ computed_report first state tickers intervals report1
    /\ stored_report state1 = Some (JDict report1)
    /\ out_messages out1 = [ {| content := json_dumps (JDict report1);
                                name := "technical_analyst_agent" |} ]
    /\ computed_report second state1 tickers intervals report2
    /\ st_data state2 !! "analyst_signals"
       = Some (DSignals (<["technical_analyst_agent" := JDict report2]>
                           analyst_signals))
    /\ stored_report state2 = Some (JDict report2)
    /\ out_messages out2 = [ {| content := json_dumps (JDict report2);
                                name := "technical_analyst_agent" |} ].
Proof.
  intros Ht Hi Hcall1 Hcall2.
  destruct (call_computed_report _ _ _ _ _ _ _ Ht Hi Hcall1)
    as (report1 & Hst1 & Hcomp1).
  destruct (call_spec _ _ _ _ _ _ _ Ht Hi Hcall1)
    as (report1' & show1 & sigs & _ & Hsig1 & _ & _ & Hstate1 & _ & Hout1).
  assert (report1' = report1) as ->.
  { rewrite Hstate1, stored_report_final in Hst1. now injection Hst1. }
  assert (Ht1 : st_data state1 !! "tickers" = Some (DTickers tickers)).
  { rewrite Hstate1. cbn [with_data st_data]. unfold final_data.
    now rewrite !lookup_insert_ne by discriminate. }
  assert (Hi1 : st_data state1 !! "intervals" = Some (DIntervals intervals)).
  { rewrite Hstate1. cbn [with_data st_data]. unfold final_data.
    now rewrite !lookup_insert_ne by discriminate. }
  destruct (call_computed_report _ _ _ _ _ _ _ Ht1 Hi1 Hcall2)
    as (report2 & Hst2 & Hcomp2).
  destruct (call_spec _ _ _ _ _ _ _ Ht1 Hi1 Hcall2)
    as (report2' & show2 & sigs1 & _ & Hsig2 & _ & _ & Hstate2 & _ & Hout2).
  assert (report2' = report2) as ->.
  { rewrite Hstate2, stored_report_final in Hst2. now injection Hst2. }
  assert (sigs1 = <["technical_analyst_agent" := JDict report1]> sigs) as ->.
  { rewrite Hstate1 in Hsig2. cbn [with_data st_data] in Hsig2.
    unfold final_data in Hsig2. rewrite lookup_insert_eq in Hsig2.
    now injection Hsig2. }
  exists sigs, report1, report2.
  split; [exact Hsig1|]. split; [exact Hcomp1|]. split; [exact Hst1|].
  split; [now rewrite Hout1|]. split; [exact Hcomp2|].
  split.
  { rewrite Hstate2. cbn [with_data st_data]. unfold final_data at 1.
    rewrite lookup_insert_eq. now rewrite insert_insert_eq. }
  split; [exact Hst2 | now rewrite Hout2].
Qed.

End SlotClaims.

Section FusionClaims.
Context {M : Type}.
Implicit Types (signals : list (string * SignalTriple M)).
Implicit Types (weights : gmap string Qc).

(** C7.  Configuration failure.  When the weight actually used by the
    labels of the set adds up to zero, and in particular when every weight of
    the profile is zero, the fusion raises [ConfigurationError]: it neither
    divides nor hands back a consensus. *)
Theorem fuse_zero_weight_raises (epsilon : Qc) signals weights :
  (Fusion.total_weight weights signals = 0%Qc ->
   Fusion.fuse epsilon signals weights = Raise ConfigurationError)
  /\ ((forall label w, weights !! label = Some w -> w = 0%Qc) ->
      Fusion.fuse epsilon signals weights = Raise ConfigurationError).
Proof.
  assert (Hzero : Fusion.total_weight weights signals = 0%Qc ->
                  Fusion.fuse epsilon signals weights = Raise ConfigurationError).
  { intros HW. unfold Fusion.fuse. rewrite HW. reflexivity. }
  split; [exact Hzero|].
  intros Hall. apply Hzero. now apply total_weight_all_zero.
Qed.

(** C8.  Determinism.  The consensus depends on the labelled signals as a
    set only: listing them in another order gives the same result. *)
Theorem fuse_order_independent (epsilon : Qc) signals signals' weights :
  signals ≡ₚ signals' ->
  Fusion.fuse epsilon signals weights = Fusion.fuse epsilon signals' weights.
Proof.
  intros Hperm. unfold Fusion.fuse.
  now rewrite (weighted_sum_perm _ _ _ Hperm), (total_weight_perm _ _ _ Hperm).
Qed.

(** C9.  Weight normalisation invariance.  Multiplying every weight of the
    profile by the same positive constant leaves the consensus, direction and
    confidence, as it was. *)
Theorem fuse_scale_invariant (epsilon c : Qc) signals weights :
  (0 < c)%Qc ->
  Fusion.fuse epsilon signals (Fusion.scale_weights c weights)
  = Fusion.fuse epsilon signals weights.
Proof.
  intros Hc. unfold Fusion.fuse.
  rewrite weighted_sum_scale, total_weight_scale by exact Hc.
  assert (Hc0 : c <> 0%Qc) by (intros ->; discriminate Hc).
  destruct (Qc_is_zero (Fusion.total_weight weights signals)) eqn:HW.
  - apply Qc_is_zero_eq in HW. rewrite HW.
    replace (c * 0)%Qc with 0%Qc by ring. reflexivity.
  - apply Qc_is_zero_neq in HW.
    assert (HcW : Qc_is_zero (c * Fusion.total_weight weights signals) = false).
    { apply Qc_is_zero_neq. intros H. apply Qcmult_integral in H as [H|H]; auto. }
    rewrite HcW.
    replace (c * Fusion.weighted_sum weights signals
             / (c * Fusion.total_weight weights signals))%Qc
      with (Fusion.weighted_sum weights signals
            / Fusion.total_weight weights signals)%Qc
      by (field; auto).
    reflexivity.
Qed.

End FusionClaims.

(** * Further properties of the two strategies *)

(** ** When an indicator function raises *)

Section Faults.
Context {DataFrame RawMetrics : Type} `{!Collaborators DataFrame RawMetrics}.
Implicit Types (record : string -> Interval -> Traced (Event DataFrame) Json).
Implicit Types (data : gmap string (DataVal DataFrame)).
Implicit Types (state : AgentState DataFrame).
Implicit Types (analysis inner : gmap string Json).
Implicit Types (tickers : list string) (intervals : list Interval).

(** X2.  No isolation of faults: as soon as one indicator function raises
    on the frame of one requested pair, the whole [__call__] raises.  No
    report is stored for any pair; of the shared state only ["name"] has
    changed. *)
Theorem indicator_fault_aborts strategy state tickers intervals
    ticker interval a :
  st_data state !! "tickers" = Some (DTickers tickers) ->
  st_data state !! "intervals" = Some (DIntervals intervals) ->
  ticker ∈ tickers -> interval ∈ intervals -> a ∈ adapters_used ->
  is_ok (run_adapter a (get_frame (st_data state) ticker interval)) = false ->
  is_ok (call strategy state).2.2 = false
  /\ (call strategy state).1
     = with_data state
         (<["name" := DStr (strategy_name strategy)]> (st_data state))
  /\ st_data (call strategy state).1 !! "analyst_signals"
     = st_data state !! "analyst_signals".
Proof.
  intros Ht Hi Hin Hiv Ha Hfault.
  destruct (call strategy state) as [state' [events [out|e]]] eqn:Hcall.
  - destruct (call_spec _ _ _ _ _ _ _ Ht Hi Hcall)
      as (_ & _ & _ & _ & _ & Hret & _).
    rewrite (Hret ticker interval a Hin Hiv Ha) in Hfault. discriminate.
  - cbn [fst snd is_ok]. rewrite (call_raise_state _ _ _ _ _ Hcall).
    cbn [with_data st_data]. rewrite lookup_insert_ne by discriminate. auto.
Qed.

End Faults.

(** ** Defaults, missing keys, the log *)

Section Edges.
Context {DataFrame RawMetrics : Type} `{!Collaborators DataFrame RawMetrics}.
Implicit Types (data : gmap string (DataVal DataFrame)).
Implicit Types (state : AgentState DataFrame).
Implicit Types (tickers : list string) (intervals : list Interval).
Implicit Types (events : list (Event DataFrame)).

Lemma invocations_app a events events' :
  invocations a (events ++ events') = invocations a events + invocations a events'.
Proof. unfold invocations. now rewrite List.filter_app, length_app. Qed.

Lemma invocations_pairs a tickers intervals
    (frame : string -> Interval -> DataVal DataFrame) :
  invocations a
    (flat_map (fun ticker =>
       flat_map (fun interval => pair_calls (frame ticker interval)) intervals)
     tickers)
  = if decide (a ∈ adapters_used)
    then length tickers * length intervals else 0.
Proof.
  assert (Hinner : forall ticker,
            invocations a
              (flat_map (fun interval => pair_calls (frame ticker interval))
                 intervals)
            = if decide (a ∈ adapters_used) then length intervals else 0).
  { intros ticker. induction intervals as [|i intervals IH]; cbn [flat_map].
    - now destruct (decide _).
    - rewrite invocations_app, IH, pair_calls_once.
      destruct (decide _); reflexivity. }
  induction tickers as [|t tickers IH]; cbn [flat_map].
  - now destruct (decide _).
  - rewrite invocations_app, IH, Hinner.
    destruct (decide _); cbn [length]; lia.
Qed.

(** The run of the loops for the lists [data.get] hands out. *)
Lemma analysis_of_returns strategy data tickers intervals :
  get_tickers data = Ok tickers ->
  get_intervals data = Ok intervals ->
  adapters_return data tickers intervals ->
  exists report,
    analysis_of strategy data
    = (flat_map (fun ticker =>
         flat_map (fun interval => pair_calls (get_frame data ticker interval))
           intervals) tickers,
       Ok report)
    /\ report_built strategy data tickers intervals report.
Proof.
  intros Ht Hi Hret.
  rewrite analysis_of_shape, (strategy_analysis_loops _ _ _ _ Ht Hi).
  destruct (pair_loops_ok (record_of strategy data) tickers intervals)
    as (report & Hrun & Hbuilt).
  { intros ticker interval Hin Hiv.
    apply record_of_ok. intros a Ha. now apply Hret. }
  exists report. split; [|exact Hbuilt].
  rewrite Hrun. f_equal.
  apply flat_map_agree. intros ticker Hin.
  apply flat_map_agree. intros interval Hiv.
  apply record_of_ok. intros a Ha. now apply Hret.
Qed.

Lemma call_returns strategy state tickers intervals (show : bool) analyst_signals :
  get_tickers (st_data state) = Ok tickers ->
  get_intervals (st_data state) = Ok intervals ->
  st_metadata state !! "show_reasoning" = Some show ->
  st_data state !! "analyst_signals" = Some (DSignals analyst_signals) ->
  adapters_return (st_data state) tickers intervals ->
  exists report,
    report_built strategy (st_data state) tickers intervals report
    /\ call strategy state
       = (with_data state (final_data strategy state analyst_signals report),
          ((let calls :=
              flat_map (fun ticker =>
                flat_map (fun interval =>
                  pair_calls (get_frame (st_data state) ticker interval))
                intervals) tickers in
            if show
            then calls ++ [Shown (JDict report) (strategy_title strategy)]
            else calls),
           Ok {| out_messages := [ {| content := json_dumps (JDict report);
                                      name := "technical_analyst_agent" |} ];
                 out_data := final_data strategy state analyst_signals report |})).
Proof.
  intros Ht Hi Hshow Hsig Hret.
  set (data1 := <["name" := DStr (strategy_name strategy)]> (st_data state)).
  destruct (analysis_of_returns strategy data1 tickers intervals)
    as (report & Hrun & Hbuilt).
  - unfold data1. now rewrite get_tickers_name.
  - unfold data1. now rewrite get_intervals_name.
  - now apply adapters_return_name.
  - exists report. split; [now apply report_built_name in Hbuilt|].
    rewrite (call_ok _ _ _ _ _ _ Hrun Hshow Hsig). cbv zeta.
    assert (Hcalls :
      flat_map (fun ticker => flat_map (fun interval =>
         pair_calls (get_frame data1 ticker interval)) intervals) tickers
      = flat_map (fun ticker => flat_map (fun interval =>
         pair_calls (get_frame (st_data state) ticker interval)) intervals) tickers).
    { apply flat_map_agree. intros ticker _. apply flat_map_agree. intros i _.
      unfold data1. now rewrite get_frame_name. }
    now rewrite Hcalls.
Qed.

Lemma get_tickers_missing data : data !! "tickers" = None -> get_tickers data = Ok [].
Proof. unfold get_tickers. now intros ->. Qed.

Lemma get_intervals_missing data :
  data !! "intervals" = None -> get_intervals data = Ok [].
Proof. unfold get_intervals. now intros ->. Qed.

Lemma no_pairs_no_calls tickers (frame : string -> Interval -> DataVal DataFrame) :
  flat_map (fun ticker =>
    flat_map (fun interval => pair_calls (frame ticker interval)) []) tickers
  = [].
Proof. induction tickers as [|t tickers IH]; cbn [flat_map app]; auto. Qed.

Lemma invocations_print a (show : bool) (report : Json) title :
  invocations a (if show then [Shown (DataFrame := DataFrame) report title] else []) = 0.
Proof. now destruct show. Qed.

(** X3.  [data.get("tickers", [])]: on a state without the ["tickers"] key
    no indicator function is called and the call completes with the empty
    report [{}] stored. *)
Theorem missing_tickers_empty_report strategy state intervals (show : bool)
    analyst_signals :
  st_data state !! "tickers" = None ->
  get_intervals (st_data state) = Ok intervals ->
  st_metadata state !! "show_reasoning" = Some show ->
  st_data state !! "analyst_signals" = Some (DSignals analyst_signals) ->
  exists state' events out,
    call strategy state = (state', (events, Ok out))
    /\ stored_report state' = Some (JDict ∅)
    /\ forall a, invocations a events = 0.
Proof.
  intros Ht Hi Hshow Hsig.
  destruct (call_returns strategy state [] intervals show analyst_signals
              (get_tickers_missing _ Ht) Hi Hshow Hsig) as (report & Hbuilt & Hcall).
  { intros ticker interval a Hin. now apply elem_of_nil in Hin. }
  assert (report = ∅) as ->.
  { apply map_eq. intros ticker. rewrite Hbuilt, lookup_empty.
    destruct (decide (ticker ∈ [])) as [Hin|]; [|reflexivity].
    now apply elem_of_nil in Hin. }
  do 3 eexists. split; [exact Hcall|]. split; [apply stored_report_final|].
  intros a. cbn [flat_map]. now destruct show.
Qed.

(** X4.  [data.get("intervals", [])]: on a state without the ["intervals"]
    key no indicator function is called and the stored report maps every
    ticker to the empty dict. *)
Theorem missing_intervals_empty_dicts strategy state tickers (show : bool)
    analyst_signals :
  st_data state !! "tickers" = Some (DTickers tickers) ->
  st_data state !! "intervals" = None ->
  st_metadata state !! "show_reasoning" = Some show ->
  st_data state !! "analyst_signals" = Some (DSignals analyst_signals) ->
  exists state' events out report,
    call strategy state = (state', (events, Ok out))
    /\ stored_report state' = Some (JDict report)
    /\ (forall ticker,
          report !! ticker
          = if decide (ticker ∈ tickers) then Some (JDict ∅) else None)
    /\ forall a, invocations a events = 0.
Proof.
  intros Ht Hi Hshow Hsig.
  destruct (call_returns strategy state tickers [] show analyst_signals
              (get_tickers_some _ _ Ht) (get_intervals_missing _ Hi) Hshow Hsig)
    as (report & Hbuilt & Hcall).
  { intros ticker interval a _ Hiv. now apply elem_of_nil in Hiv. }
  do 3 eexists. exists report.
  split; [exact Hcall|]. split; [apply stored_report_final|].
  split; [exact Hbuilt|].
  intros a. cbv zeta. rewrite no_pairs_no_calls. now destruct show.
Qed.

End Edges.

Section MissingKeys.
Context {DataFrame RawMetrics : Type} `{!Collaborators DataFrame RawMetrics}.
Implicit Types (data : gmap string (DataVal DataFrame)).
Implicit Types (state : AgentState DataFrame).
Implicit Types (tickers : list string) (intervals : list Interval).
Implicit Types (events : list (Event DataFrame)).

(** The loops of a call whose indicator functions return, on the data with
    the name written. *)
Lemma analysis_after_name strategy state tickers intervals :
  st_data state !! "tickers" = Some (DTickers tickers) ->
  st_data state !! "intervals" = Some (DIntervals intervals) ->
  adapters_return (st_data state) tickers intervals ->
  exists report,
    analysis_of strategy
      (<["name" := DStr (strategy_name strategy)]> (st_data state))
    = (flat_map (fun ticker =>
         flat_map (fun interval =>
           pair_calls (get_frame (st_data state) ticker interval))
         intervals) tickers,
       Ok report)
    /\ report_built strategy (st_data state) tickers intervals report.
Proof.
  intros Ht Hi Hret.
  set (data1 := <["name" := DStr (strategy_name strategy)]> (st_data state)).
  destruct (analysis_of_ok strategy data1 tickers intervals)
    as (report & Hrun & Hbuilt).
  - unfold data1. now rewrite lookup_insert_ne.
  - unfold data1. now rewrite lookup_insert_ne.
  - now apply adapters_return_name.
  - exists report. split; [|now apply report_built_name in Hbuilt].
    rewrite Hrun. f_equal.
    apply flat_map_agree. intros ticker _. apply flat_map_agree. intros i _.
    unfold data1. now rewrite get_frame_name.
Qed.

(** X5.  [state["metadata"]["show_reasoning"]] on a state without the flag:
    the loops have run and every indicator function has been called on every
    pair when [KeyError] is raised; nothing is printed, nothing is stored, of
    the shared state only ["name"] has changed. *)
Theorem missing_flag_raises strategy state tickers intervals :
  st_data state !! "tickers" = Some (DTickers tickers) ->
  st_data state !! "intervals" = Some (DIntervals intervals) ->
  adapters_return (st_data state) tickers intervals ->
  st_metadata state !! "show_reasoning" = None ->
  call strategy state
  = (with_data state
       (<["name" := DStr (strategy_name strategy)]> (st_data state)),
     (flat_map (fun ticker =>
        flat_map (fun interval =>
          pair_calls (get_frame (st_data state) ticker interval))
        intervals) tickers,
      Raise (KeyError "show_reasoning"))).
Proof.
  intros Ht Hi Hret Hnone.
  destruct (analysis_after_name strategy state tickers intervals Ht Hi Hret)
    as (report & Hrun & _).
  rewrite call_shape. unfold strategy_call. cbv zeta.
  rewrite <- analysis_of_shape, Hrun.
  cbn [with_data st_metadata]. rewrite Hnone. reflexivity.
Qed.

(** X6.  [state["data"]["analyst_signals"]] on a state without that key:
    [KeyError] is raised by the very last statement, after the loops and
    after the diagnostic print of the finished report; the report is lost
    with the exception. *)
Theorem missing_slot_raises_after_print strategy state tickers intervals
    (show : bool) :
  st_data state !! "tickers" = Some (DTickers tickers) ->
  st_data state !! "intervals" = Some (DIntervals intervals) ->
  adapters_return (st_data state) tickers intervals ->
  st_metadata state !! "show_reasoning" = Some show ->
  st_data state !! "analyst_signals" = None ->
  exists report,
    exact_keys tickers intervals report
    /\ call strategy state
       = (with_data state
            (<["name" := DStr (strategy_name strategy)]> (st_data state)),
          ((let calls :=
              flat_map (fun ticker =>
                flat_map (fun interval =>
                  pair_calls (get_frame (st_data state) ticker interval))
                intervals) tickers in
            if show
            then calls ++ [Shown (JDict report) (strategy_title strategy)]
            else calls),
           Raise (KeyError "analyst_signals"))).
Proof.
  intros Ht Hi Hret Hshow Hnone.
  destruct (analysis_after_name strategy state tickers intervals Ht Hi Hret)
    as (report & Hrun & Hbuilt).
  exists report. split; [exact (report_built_keys _ _ _ _ _ Hbuilt)|].
  rewrite call_shape. unfold strategy_call. cbv zeta.
  rewrite <- analysis_of_shape, Hrun.
  cbn [with_data st_metadata st_data]. rewrite Hshow.
  rewrite lookup_insert_ne by discriminate. rewrite Hnone. reflexivity.
Qed.

(** X7.  A completed call has called each of the four indicator functions
    once per ticker and interval of the lists, that is
    [len(tickers) * len(intervals)] times, and [calculate_stat_arb_signals],
    which the modules import, not at all. *)
Theorem invocation_count strategy state tickers intervals state' events out :
  st_data state !! "tickers" = Some (DTickers tickers) ->
  st_data state !! "intervals" = Some (DIntervals intervals) ->
  call strategy state = (state', (events, Ok out)) ->
  forall a,
    invocations a events
    = if decide (a ∈ adapters_used)
      then length tickers * length intervals else 0.
Proof.
  intros Ht Hi Hcall a.
  destruct (call_spec _ _ _ _ _ _ _ Ht Hi Hcall)
    as (report & show & sigs & _ & _ & _ & _ & _ & -> & _).
  cbv zeta. destruct show.
  - rewrite invocations_app, invocations_pairs.
    change (invocations a [Shown (JDict report) (strategy_title strategy)]) with 0.
    lia.
  - apply invocations_pairs.
Qed.

(** X8.  [show_agent_reasoning] is called if and only if the flag is set:
    then once, after the last indicator call, with the strategy's title and
    with the report that is stored. *)
Theorem print_follows_flag strategy state tickers intervals (show : bool)
    state' events out :
  st_data state !! "tickers" = Some (DTickers tickers) ->
  st_data state !! "intervals" = Some (DIntervals intervals) ->
  st_metadata state !! "show_reasoning" = Some show ->
  call strategy state = (state', (events, Ok out)) ->
  exists report,
    stored_report state' = Some (JDict report)
    /\ events
       = flat_map (fun ticker =>
           flat_map (fun interval =>
             pair_calls (get_frame (st_data state) ticker interval))
           intervals) tickers
         ++ (if show
             then [Shown (JDict report) (strategy_title strategy)]
             else []).
Proof.
  intros Ht Hi Hshow Hcall.
  destruct (call_spec _ _ _ _ _ _ _ Ht Hi Hcall)
    as (report & show' & sigs & Hshow' & _ & _ & _ & -> & -> & _).
  rewrite Hshow in Hshow'. injection Hshow' as <-.
  exists report. split; [apply stored_report_final|].
  cbv zeta. destruct show; [reflexivity | now rewrite app_nil_r].
Qed.

End MissingKeys.

(** ** Pairs do not see each other, runs do not see each other *)

Section Independence.
Context {DataFrame RawMetrics : Type} `{!Collaborators DataFrame RawMetrics}.
Implicit Types (data : gmap string (DataVal DataFrame)).
Implicit Types (state : AgentState DataFrame).
Implicit Types (tickers : list string) (intervals : list Interval).

Lemma for_each_agree {E A S} (body body' : A -> S -> Traced E S) (xs : list A) :
  (forall x s, x ∈ xs -> body x s = body' x s) ->
  forall s, for_each xs body s = for_each xs body' s.
Proof.
  induction xs as [|x xs IH]; intros Hagree s; cbn [for_each]; [reflexivity|].
  rewrite (Hagree x s) by left. unfold bind.
  destruct (body' x s).2 as [s'|e]; [|reflexivity].
  rewrite IH; [reflexivity|]. intros y s0 Hy. apply Hagree. now right.
Qed.

Lemma pair_loops_agree
    (record record' : string -> Interval -> Traced (Event DataFrame) Json)
    tickers intervals (analysis : gmap string Json) :
  (forall ticker interval, ticker ∈ tickers -> interval ∈ intervals ->
     record ticker interval = record' ticker interval) ->
  pair_loops record tickers intervals analysis
  = pair_loops record' tickers intervals analysis.
Proof.
  intros Hagree. unfold pair_loops.
  apply for_each_agree. intros ticker s Hin.
  apply for_each_agree. intros interval s' Hiv.
  now rewrite Hagree.
Qed.

(** A pair reads its own frame and nothing else of the data. *)
Lemma record_of_frame strategy data data' ticker interval :
  get_frame data ticker interval = get_frame data' ticker interval ->
  record_of strategy data ticker interval
  = record_of strategy data' ticker interval.
Proof.
  intros Hframe.
  destruct strategy; cbn [record_of];
    unfold EMAStrategy_record, RSIStrategy_record; cbv zeta;
    now rewrite Hframe.
Qed.

Lemma analysis_of_agree strategy data data' tickers intervals :
  data !! "tickers" = Some (DTickers tickers) ->
  data !! "intervals" = Some (DIntervals intervals) ->
  data' !! "tickers" = Some (DTickers tickers) ->
  data' !! "intervals" = Some (DIntervals intervals) ->
  (forall ticker interval, ticker ∈ tickers -> interval ∈ intervals ->
     get_frame data ticker interval = get_frame data' ticker interval) ->
  analysis_of strategy data = analysis_of strategy data'.
Proof.
  intros Ht Hi Ht' Hi' Hframes.
  rewrite analysis_of_shape,
    (strategy_analysis_loops _ data _ _ (get_tickers_some _ _ Ht)
       (get_intervals_some _ _ Hi)),
    (strategy_analysis_loops _ data' _ _ (get_tickers_some _ _ Ht')
       (get_intervals_some _ _ Hi')).
  apply pair_loops_agree. intros ticker interval Hin Hiv.
  apply record_of_frame. now apply Hframes.
Qed.

(** X9.  The record of a pair is made from the frame of that pair alone.
    Let two completed calls of the same strategy, on any two states, both
    cover the pair and find the same frame for it: they store the same
    record for it, whatever else the two states hold. *)
Theorem record_reads_own_frame strategy ticker interval
    state tickers intervals state' events out
    other tickers2 intervals2 other' events2 out2 :
  st_data state !! "tickers" = Some (DTickers tickers) ->
  st_data state !! "intervals" = Some (DIntervals intervals) ->
  st_data other !! "tickers" = Some (DTickers tickers2) ->
  st_data other !! "intervals" = Some (DIntervals intervals2) ->
  ticker ∈ tickers -> interval ∈ intervals ->
  ticker ∈ tickers2 -> interval ∈ intervals2 ->
  get_frame (st_data state) ticker interval
  = get_frame (st_data other) ticker interval ->
  call strategy state = (state', (events, Ok out)) ->
  call strategy other = (other', (events2, Ok out2)) ->
  exists report report2 record,
    stored_report state' = Some (JDict report)
    /\ stored_report other' = Some (JDict report2)
    /\ record_at report ticker interval = Some record
    /\ record_at report2 ticker interval = Some record.
Proof.
  intros Ht Hi Ht2 Hi2 Hin Hiv Hin2 Hiv2 Hframe Hcall Hcall2.
  destruct (call_record _ _ _ _ _ _ _ _ _ Ht Hi Hcall Hin Hiv)
    as (report & tr & mo & me & vo & combined
        & Hst & H1 & H2 & H3 & H4 & Hc & Hrec).
  destruct (call_record _ _ _ _ _ _ _ _ _ Ht2 Hi2 Hcall2 Hin2 Hiv2)
    as (report2 & tr2 & mo2 & me2 & vo2 & combined2
        & Hst2 & G1 & G2 & G3 & G4 & Gc & Grec).
  cbv zeta in *. rewrite <- Hframe in G1, G2, G3, G4.
  rewrite H1 in G1. rewrite H2 in G2. rewrite H3 in G3. rewrite H4 in G4.
  injection G1 as <-. injection G2 as <-. injection G3 as <-. injection G4 as <-.
  rewrite Hc in Gc. injection Gc as <-.
  exists report, report2. eexists. eauto.
Qed.

(** X10.  A completed run leaves nothing behind that a later run could
    see.  Provided no requested pair has ["analyst_signals"] for the key of its
    frame, calling a strategy on the state an earlier, completed call has left
    does exactly what calling it on the original state does: the same log,
    the same outcome, the same shared state afterwards.  In particular a
    strategy called twice in a row repeats itself. *)
Theorem later_run_ignores_earlier first second state tickers intervals
    state1 events1 out1 :
  st_data state !! "tickers" = Some (DTickers tickers) ->
  st_data state !! "intervals" = Some (DIntervals intervals) ->
  (forall ticker interval, ticker ∈ tickers -> interval ∈ intervals ->
     ticker +:+ "_" +:+ value interval <> "analyst_signals") ->
  call first state = (state1, (events1, Ok out1)) ->
  call second state1 = call second state.
Proof.
  intros Ht Hi Hkeys Hcall.
  destruct (call_spec _ _ _ _ _ _ _ Ht Hi Hcall)
    as (report1 & show & sigs & Hshow & Hsig & Hret & _ & -> & _).
  set (data2 := <["name" := DStr (strategy_name second)]> (st_data state)).
  set (data1 := final_data first state sigs report1).
  destruct (analysis_of_ok second data2 tickers intervals)
    as (report2 & Hrun2 & _).
  { unfold data2. now rewrite lookup_insert_ne. }
  { unfold data2. now rewrite lookup_insert_ne. }
  { now apply adapters_return_name. }
  assert (Hrun1 :
    analysis_of second (<["name" := DStr (strategy_name second)]> data1)
    = analysis_of second data2).
  { apply (analysis_of_agree second _ _ tickers intervals).
    - unfold data1, final_data. now rewrite !lookup_insert_ne.
    - unfold data1, final_data. now rewrite !lookup_insert_ne.
    - unfold data2. now rewrite lookup_insert_ne.
    - unfold data2. now rewrite lookup_insert_ne.
    - intros ticker interval Hin Hiv. unfold data2.
      rewrite !get_frame_name. unfold data1, final_data, get_frame.
      rewrite lookup_insert_ne by (intros H; symmetry in H; exact (Hkeys _ _ Hin Hiv H)).
      rewrite lookup_insert_ne; [reflexivity|].
      intros H. symmetry in H. exact (frame_key_not_name _ _ H). }
  rewrite Hrun2 in Hrun1.
  rewrite (call_ok second state _ _ _ _ Hrun2 Hshow Hsig).
  assert (Hsig1 : st_data (with_data state data1) !! "analyst_signals"
                  = Some (DSignals (<["technical_analyst_agent" := JDict report1]> sigs)))
    by (cbn [with_data st_data]; unfold data1, final_data; apply lookup_insert_eq).
  rewrite (call_ok second (with_data state data1) _ report2 show _
             Hrun1 Hshow Hsig1).
  assert (Hdata :
    final_data second (with_data state data1)
      (<["technical_analyst_agent" := JDict report1]> sigs) report2
    = final_data second state sigs report2).
  { unfold final_data, data1, final_data. cbn [with_data st_data].
    rewrite insert_insert_eq.
    apply map_eq. intros key.
    destruct (decide (key = "analyst_signals")) as [->|Hk].
    - now rewrite !lookup_insert_eq.
    - rewrite !(lookup_insert_ne _ "analyst_signals") by congruence.
      destruct (decide (key = "name")) as [->|Hn].
      + now rewrite !lookup_insert_eq.
      + rewrite !(lookup_insert_ne _ "name") by congruence.
        now rewrite !lookup_insert_ne by congruence. }
  rewrite Hdata. reflexivity.
Qed.

(** X11.  What a stored record holds, end to end.  For a requested pair of
    a completed call, let [tr], [mo], [me], [vo] be what the trend, momentum,
    mean-reversion and volatility functions returned on the frame of the pair.
    ["signal"] and ["confidence"] of the record are the direction and the
    rounded confidence that [weighted_signal_combination] returns on the five
    labelled triples under the strategy's weights.  ["strategy_signals"] has
    exactly the five labels of the strategy; under each label the fusion was
    handed the triple of the function behind the label, and the detail holds
    exactly three fields: the signal, [round(confidence * 100)] and
    [normalize_pandas] of the metrics of that triple. *)
Theorem stored_record_contents strategy state tickers intervals
    state' events out ticker interval :
  st_data state !! "tickers" = Some (DTickers tickers) ->
  st_data state !! "intervals" = Some (DIntervals intervals) ->
  call strategy state = (state', (events, Ok out)) ->
  ticker ∈ tickers -> interval ∈ intervals ->
  exists report fields details tr mo me vo combined,
    stored_report state' = Some (JDict report)
    /\ record_at report ticker interval = Some (JDict fields)
    /\ run_adapter Trend (get_frame (st_data state) ticker interval) = Ok tr
    /\ run_adapter Momentum (get_frame (st_data state) ticker interval) = Ok mo
    /\ run_adapter MeanReversion (get_frame (st_data state) ticker interval) = Ok me
    /\ run_adapter Volatility (get_frame (st_data state) ticker interval) = Ok vo
    /\ Fusion.weighted_signal_combination
         (labelled_signals strategy tr mo me vo) (strategy_weights strategy)
       = Ok combined
    /\ fields !! "signal"
       = Some (JStr (direction_name (consensus_signal combined)))
    /\ fields !! "confidence"
       = Some (JInt (py_round (float_mul (consensus_confidence combined)
                                 (Qc_of_Z 100))))
    /\ fields !! "strategy_signals" = Some (JDict details)
    /\ dom details = list_to_set (label_adapters strategy).*1
    /\ forall label a, (label, a) ∈ label_adapters strategy ->
         exists s detail,
           run_adapter a (get_frame (st_data state) ticker interval) = Ok s
           /\ (label, s) ∈ labelled_signals strategy tr mo me vo
           /\ details !! label = Some (JDict detail)
           /\ dom detail = ({["signal"; "confidence"; "metrics"]} : gset string)
           /\ detail !! "signal" = Some (JStr (direction_name (signal s)))
           /\ detail !! "confidence"
              = Some (JInt (py_round (float_mul (confidence s) (Qc_of_Z 100))))
           /\ detail !! "metrics" = Some (normalize_pandas (metrics s)).
Proof.
  intros Ht Hi Hcall Hin Hiv.
  destruct (call_record _ _ _ _ _ _ _ _ _ Ht Hi Hcall Hin Hiv)
    as (report & tr & mo & me & vo & combined
        & Hst & H1 & H2 & H3 & H4 & Hc & Hrec).
  cbv zeta in H1, H2, H3, H4.
  destruct (record_details strategy combined tr mo me vo)
    as (fields & details & Heq & Hsig & Hconf & Hdet & Hdom & Hlabels).
  exists report, fields, details, tr, mo, me, vo, combined.
  rewrite Heq in Hrec.
  do 11 (split; [assumption|]).
  intros label a Hla.
  destruct (Hlabels label a Hla) as (s & Hs & Hls & Hlook).
  destruct (label_detail_fields s)
    as (detail & Hd & Hddom & Hdsig & Hdconf & Hdmet).
  exists s, detail.
  split; [exact (triple_of_run _ _ _ _ _ _ _ H1 H2 H3 H4 Hs)|].
  split; [exact Hls|]. split; [now rewrite Hlook, Hd|]. auto.
Qed.

End Independence.

(** * The claims at work on concrete collaborators *)

#[local] Existing Instance demo.

(** An all-zero profile against two signals. *)
Lemma fuse_zero_weight_raises_witness :
  Fusion.fuse 0%Qc
    [("trend", mkTriple bullish (qc 8 10) tt); ("momentum", mkTriple bearish (qc 3 10) tt)]
    (list_to_map [("trend", 0%Qc); ("momentum", 0%Qc)])
  = Raise ConfigurationError.
Proof.
  apply (proj1 (fuse_zero_weight_raises 0%Qc _ _)).
  apply Qc_is_canon. reflexivity.
Defined.

(** Two signals, listed in either order. *)
Lemma fuse_order_independent_witness :
  Fusion.fuse 0%Qc
    [("trend", mkTriple bullish (qc 8 10) tt); ("momentum", mkTriple bearish (qc 3 10) tt)]
    (list_to_map [("trend", qc 45 100); ("momentum", qc 30 100)])
  = Fusion.fuse 0%Qc
    [("momentum", mkTriple bearish (qc 3 10) tt); ("trend", mkTriple bullish (qc 8 10) tt)]
    (list_to_map [("trend", qc 45 100); ("momentum", qc 30 100)]).
Proof.
  apply fuse_order_independent. apply perm_swap.
Defined.

(** The profile scaled by 7/2. *)
Lemma fuse_scale_invariant_witness :
  Fusion.fuse 0%Qc
    [("trend", mkTriple bullish (qc 8 10) tt); ("momentum", mkTriple bearish (qc 3 10) tt)]
    (Fusion.scale_weights (qc 7 2)
       (list_to_map [("trend", qc 45 100); ("momentum", qc 30 100)]))
  = Fusion.fuse 0%Qc
    [("trend", mkTriple bullish (qc 8 10) tt); ("momentum", mkTriple bearish (qc 3 10) tt)]
    (list_to_map [("trend", qc 45 100); ("momentum", qc 30 100)]).
Proof.
  apply fuse_scale_invariant. reflexivity.
Defined.

(** The concrete indicator functions return on both pairs of
    [demo_state]: on the prices of AAA and on the empty frame of BBB. *)
Lemma demo_adapters_return :
  adapters_return (st_data demo_state) ["AAA"; "BBB"] [mkInterval "1d"].
Proof.
  intros ticker interval a Ht Hi Ha.
  apply list_elem_of_singleton in Hi as ->.
  unfold adapters_used in Ha.
  repeat (apply elem_of_cons in Ht as [->|Ht]);
    try (now apply elem_of_nil in Ht);
    repeat (apply elem_of_cons in Ha as [->|Ha]);
    try (now apply elem_of_nil in Ha); vm_compute; reflexivity.
Defined.

(** The EMA strategy on [demo_state]: two tickers, one interval, the frame
    of the second ticker absent. *)
Lemma report_completeness_witness :
  exists state' events out report,
    call EMA demo_state = (state', (events, Ok out))
    /\ stored_report state' = Some (JDict report)
    /\ exact_keys ["AAA"; "BBB"] [mkInterval "1d"] report.
Proof.
  refine (proj2 (@report_completeness _ _ demo EMA demo_state
                   ["AAA"; "BBB"] [mkInterval "1d"] _ _) _ _ _).
  - vm_compute. reflexivity.
  - vm_compute. reflexivity.
  - exists true. vm_compute. reflexivity.
  - eexists. vm_compute. reflexivity.
  - exact demo_adapters_return.
Defined.

(** C2 as stated fails: after the EMA strategy has run on [demo_state] the
    shared state is another one; its data has a ["name"] it did not have and
    its ["analyst_signals"] holds a report it did not hold. *)
Lemma call_mutates_shared_state :
  is_ok (call EMA demo_state).2.2 = true
  /\ (call EMA demo_state).1 <> demo_state
  /\ st_data (call EMA demo_state).1 !! "name"
     <> st_data demo_state !! "name"
  /\ stored_report (call EMA demo_state).1
     <> stored_report demo_state.
Proof.
  assert (Hname : st_data (call EMA demo_state).1 !! "name"
                  <> st_data demo_state !! "name").
  { intros H.
    apply (f_equal (fun o => match o with Some _ => true | None => false end)) in H.
    vm_compute in H. discriminate. }
  split; [vm_compute; reflexivity|].
  split; [intros H; apply Hname; now rewrite H|].
  split; [exact Hname|].
  intros H.
  apply (f_equal (fun o => match o with Some _ => true | None => false end)) in H.
  vm_compute in H. discriminate.
Qed.

(** A key the call does not touch. *)
Lemma call_frame_witness :
  st_data (call EMA demo_state).1 !! "tickers"
  = st_data demo_state !! "tickers".
Proof.
  apply (proj1 (proj2 (proj2 (proj2 (@call_frame _ _ demo EMA demo_state)))));
    discriminate.
Defined.

(** The EMA strategy, then the RSI strategy, on [demo_state]. *)
Lemma same_slot_last_writer_wins_witness :
  exists analyst_signals report1 report2,
    st_data demo_state !! "analyst_signals" = Some (DSignals analyst_signals)
    /\ computed_report EMA demo_state ["AAA"; "BBB"] [mkInterval "1d"] report1
    /\ stored_report (call EMA demo_state).1 = Some (JDict report1)
    /\ out_messages
         (ok_or (mkOutput [] ∅) (call EMA demo_state).2.2)
       = [ {| content := json_dumps (JDict report1);
              name := "technical_analyst_agent" |} ]
    /\ computed_report RSI (call EMA demo_state).1
         ["AAA"; "BBB"] [mkInterval "1d"] report2
    /\ st_data (call RSI (call EMA demo_state).1).1
         !! "analyst_signals"
       = Some (DSignals (<["technical_analyst_agent" := JDict report2]>
                           analyst_signals))
    /\ stored_report (call RSI (call EMA demo_state).1).1
       = Some (JDict report2)
    /\ out_messages
         (ok_or (mkOutput [] ∅)
            (call RSI (call EMA demo_state).1).2.2)
       = [ {| content := json_dumps (JDict report2);
              name := "technical_analyst_agent" |} ].
Proof.
  refine (@same_slot_last_writer_wins _ _ demo EMA RSI demo_state
            ["AAA"; "BBB"] [mkInterval "1d"]
            (call EMA demo_state).1
            (call RSI (call EMA demo_state).1).1
            (call EMA demo_state).2.1
            (call RSI (call EMA demo_state).1).2.1
            (ok_or (mkOutput [] ∅) (call EMA demo_state).2.2)
            (ok_or (mkOutput [] ∅) (call RSI (call EMA demo_state).1).2.2)
            eq_refl eq_refl _ _).
  - reflexivity.
  - reflexivity.
Defined.

(** Both strategies complete on [demo_state]. *)
Lemma demo_call_returns (strategy : Strategy) :
  call strategy demo_state
  = ((call strategy demo_state).1,
     ((call strategy demo_state).2.1,
      Ok (ok_or (mkOutput [] ∅) (call strategy demo_state).2.2))).
Proof. destruct strategy; reflexivity. Defined.

(** The concrete indicator functions keep their confidences in [0, 1]. *)
Lemma demo_indicator_in_range d (c : Qc) (df : DataVal (list Z)) s :
  (0 <= c)%Qc -> (c <= 1)%Qc ->
  demo_indicator d c df = Ok s ->
  (0 <= confidence s)%Qc /\ (confidence s <= 1)%Qc.
Proof.
  intros H0 H1.
  destruct df as [| | |[|price prices]|]; cbn [demo_indicator];
    intros [= <-]; cbn [confidence]; split;
    solve [assumption | discriminate].
Defined.

Lemma demo_adapters_in_range : adapters_in_range.
Proof.
  intros a df s.
  destruct a; cbn [run_adapter demo calculate_trend_signals
                   calculate_mean_reversion_signals calculate_momentum_signals
                   calculate_volatility_signals calculate_stat_arb_signals];
    apply demo_indicator_in_range; vm_compute; discriminate.
Defined.

(** C3 as stated fails: the record the EMA strategy stores for AAA / 1d on
    [demo_state] is not a record of signal, confidence and details alone. *)
Lemma EMA_record_has_extra_field :
  exists report record,
    stored_report (call EMA demo_state).1 = Some (JDict report)
    /\ record_at report "AAA" (mkInterval "1d") = Some record
    /\ ~ is_analysis_record ∅ record.
Proof.
  destruct (call_record EMA demo_state ["AAA"; "BBB"] [mkInterval "1d"]
              _ _ _ "AAA" (mkInterval "1d") eq_refl eq_refl
              (demo_call_returns EMA))
    as (report & tr & mo & me & vo & combined & Hst & _ & _ & _ & _ & _ & Hrec);
    [set_solver | set_solver |].
  exists report, (report_record EMA combined tr mo me vo).
  split; [exact Hst|]. split; [exact Hrec|].
  apply EMA_record_extra_field.
Qed.

(** The records of the RSI strategy on [demo_state]. *)
Lemma record_shape_witness :
  exists report,
    stored_report (call RSI demo_state).1 = Some (JDict report)
    /\ forall ticker interval,
         ticker ∈ ["AAA"; "BBB"] -> interval ∈ [mkInterval "1d"] ->
         exists record,
           record_at report ticker interval = Some record
           /\ is_analysis_record (extra_fields RSI) record.
Proof.
  exact (record_shape RSI demo_state ["AAA"; "BBB"] [mkInterval "1d"] _ _ _
           eq_refl eq_refl demo_adapters_in_range (demo_call_returns RSI)).
Defined.

(** The indicator functions of [demo_agreeing] all answer bullish with
    confidence 0.5049 on the prices of AAA: [demo_state] gets a record with
    the fused confidence 50. *)
Lemma demo_agreeing_in_range : @adapters_in_range _ _ demo_agreeing.
Proof.
  intros a df s.
  destruct a; cbn [run_adapter demo_agreeing calculate_trend_signals
                   calculate_mean_reversion_signals calculate_momentum_signals
                   calculate_volatility_signals calculate_stat_arb_signals];
    apply demo_indicator_in_range; vm_compute; discriminate.
Defined.

Lemma demo_agreeing_call_returns (strategy : Strategy) :
  @call _ _ demo_agreeing strategy demo_state
  = ((@call _ _ demo_agreeing strategy demo_state).1,
     ((@call _ _ demo_agreeing strategy demo_state).2.1,
      Ok (ok_or (mkOutput [] ∅) (@call _ _ demo_agreeing strategy demo_state).2.2))).
Proof. destruct strategy; reflexivity. Defined.

Lemma confidence_rounded_at_the_boundary_witness :
  exists report fields,
    stored_report (@call _ _ demo_agreeing EMA demo_state).1 = Some (JDict report)
    /\ record_at report "AAA" (mkInterval "1d") = Some (JDict fields)
    /\ fields !! "confidence" = Some (JInt 50).
Proof.
  destruct (@confidence_rounded_at_the_boundary _ _ demo_agreeing EMA demo_state
              ["AAA"; "BBB"] [mkInterval "1d"] _ _ _ "AAA" (mkInterval "1d")
              eq_refl eq_refl demo_agreeing_in_range
              (demo_agreeing_call_returns EMA))
    as [(report & fields & details & tr & mo & me & vo & combined
         & Hst & Hrec & H1 & H2 & H3 & H4 & Hc & _ & H5049 & _) _];
    [set_solver | set_solver |].
  exists report, fields. split; [exact Hst|]. split; [exact Hrec|].
  apply H5049.
  injection H1 as <-. injection H2 as <-. injection H3 as <-. injection H4 as <-.
  vm_compute in Hc. injection Hc as <-.
  apply Qc_is_canon. reflexivity.
Defined.

(** The log of the EMA strategy on [demo_state]. *)
Lemma adapters_invoked_once_witness :
  (exists printed : list (Event (list Z)),
     (call EMA demo_state).2.1
     = flat_map (fun ticker =>
         flat_map (fun interval =>
           pair_calls (get_frame (st_data demo_state) ticker interval))
         [mkInterval "1d"]) ["AAA"; "BBB"] ++ printed
     /\ forall a, invocations a printed = 0)
  /\ (forall (df : DataVal (list Z)) a,
        a ∈ adapters_used -> invocations a (pair_calls df) = 1)
  /\ exists report,
       stored_report (call EMA demo_state).1 = Some (JDict report)
       /\ forall ticker interval,
            ticker ∈ ["AAA"; "BBB"] -> interval ∈ [mkInterval "1d"] ->
            exists fields details,
              record_at report ticker interval = Some (JDict fields)
              /\ fields !! "strategy_signals" = Some (JDict details)
              /\ (forall label a, (label, a) ∈ label_adapters EMA ->
                    exists s detail,
                      run_adapter a (get_frame (st_data demo_state) ticker interval)
                      = Ok s
                      /\ details !! label = Some (JDict detail)
                      /\ detail !! "signal"
                         = Some (JStr (direction_name (signal s)))
                      /\ detail !! "confidence"
                         = Some (JInt (py_round (float_mul (confidence s)
                                                   (Qc_of_Z 100))))
                      /\ detail !! "metrics"
                         = Some (normalize_pandas (metrics s)))
              /\ (forall label label' a,
                    (label, a) ∈ label_adapters EMA ->
                    (label', a) ∈ label_adapters EMA ->
                    is_Some (details !! label)
                    /\ details !! label = details !! label').
Proof.
  exact (adapters_invoked_once EMA demo_state ["AAA"; "BBB"] [mkInterval "1d"]
           _ _ _ eq_refl eq_refl (demo_call_returns EMA)).
Defined.

(** BBB has no frame in [demo_state]; the RSI strategy reports it neutral. *)
Lemma missing_series_still_reported_witness :
  get_frame (st_data demo_state) "BBB" (mkInterval "1d") = DFrame empty_frame
  /\ exists state' events out report fields,
       call RSI demo_state = (state', (events, Ok out))
       /\ stored_report state' = Some (JDict report)
       /\ record_at report "BBB" (mkInterval "1d") = Some (JDict fields)
       /\ fields !! "signal" = Some (JStr "neutral")
       /\ fields !! "confidence" = Some (JInt 0).
Proof.
  apply (missing_series_still_reported RSI demo_state
           ["AAA"; "BBB"] [mkInterval "1d"] true
           {["risk_agent" := JStr "hold"]} "BBB" (mkInterval "1d")).
  - reflexivity.
  - reflexivity.
  - reflexivity.
  - reflexivity.
  - set_solver.
  - set_solver.
  - reflexivity.
  - intros a Ha. destruct a; eexists; reflexivity.
  - exact demo_adapters_return.
Defined.

(** * The further properties at work *)

Lemma indicator_fault_aborts_witness :
  is_ok (call RSI demo_corrupt_state).2.2 = false
  /\ (call RSI demo_corrupt_state).1
     = with_data demo_corrupt_state
         (<["name" := DStr (strategy_name RSI)]> (st_data demo_corrupt_state))
  /\ st_data (call RSI demo_corrupt_state).1 !! "analyst_signals"
     = st_data demo_corrupt_state !! "analyst_signals".
Proof.
  apply (indicator_fault_aborts RSI demo_corrupt_state
           ["AAA"] [mkInterval "1d"] "AAA" (mkInterval "1d") Volatility
           eq_refl eq_refl).
  - set_solver.
  - set_solver.
  - unfold adapters_used. set_solver.
  - reflexivity.
Defined.

Lemma missing_tickers_empty_report_witness :
  exists state' events out,
    call EMA demo_bare_state = (state', (events, Ok out))
    /\ stored_report state' = Some (JDict ∅)
    /\ forall a, invocations a events = 0.
Proof.
  exact (missing_tickers_empty_report EMA demo_bare_state [] false ∅
           eq_refl eq_refl eq_refl eq_refl).
Defined.

Lemma missing_intervals_empty_dicts_witness :
  exists state' events out report,
    call EMA demo_no_intervals_state = (state', (events, Ok out))
    /\ stored_report state' = Some (JDict report)
    /\ (forall ticker,
          report !! ticker
          = if decide (ticker ∈ ["AAA"; "BBB"]) then Some (JDict ∅) else None)
    /\ forall a, invocations a events = 0.
Proof.
  exact (missing_intervals_empty_dicts EMA demo_no_intervals_state
           ["AAA"; "BBB"] true ∅ eq_refl eq_refl eq_refl eq_refl).
Defined.

Lemma missing_flag_raises_witness :
  call EMA demo_unflagged_state
  = (with_data demo_unflagged_state
       (<["name" := DStr (strategy_name EMA)]> (st_data demo_unflagged_state)),
     (flat_map (fun ticker =>
        flat_map (fun interval =>
          pair_calls (get_frame (st_data demo_unflagged_state) ticker interval))
        [mkInterval "1d"]) ["AAA"; "BBB"],
      Raise (KeyError "show_reasoning"))).
Proof.
  exact (missing_flag_raises EMA demo_unflagged_state
           ["AAA"; "BBB"] [mkInterval "1d"]
           eq_refl eq_refl demo_adapters_return eq_refl).
Defined.

Lemma missing_slot_raises_after_print_witness :
  exists report,
    exact_keys ["AAA"] [mkInterval "1d"] report
    /\ call RSI demo_slotless_state
       = (with_data demo_slotless_state
            (<["name" := DStr (strategy_name RSI)]> (st_data demo_slotless_state)),
          (flat_map (fun ticker =>
             flat_map (fun interval =>
               pair_calls (get_frame (st_data demo_slotless_state) ticker interval))
             [mkInterval "1d"]) ["AAA"]
           ++ [Shown (JDict report) (strategy_title RSI)],
           Raise (KeyError "analyst_signals"))).
Proof.
  refine (missing_slot_raises_after_print RSI demo_slotless_state
            ["AAA"] [mkInterval "1d"] true eq_refl eq_refl _ eq_refl eq_refl).
  intros ticker interval a Ht Hi Ha.
  apply list_elem_of_singleton in Ht as ->.
  apply list_elem_of_singleton in Hi as ->.
  destruct a; reflexivity.
Defined.

Lemma invocation_count_witness :
  (invocations Trend (call EMA demo_state).2.1
   = if decide (Trend ∈ adapters_used) then 2 * 1 else 0)
  /\ (invocations StatArb (call EMA demo_state).2.1
      = if decide (StatArb ∈ adapters_used) then 2 * 1 else 0).
Proof.
  split.
  - exact (invocation_count EMA demo_state ["AAA"; "BBB"] [mkInterval "1d"]
             _ _ _ eq_refl eq_refl (demo_call_returns EMA) Trend).
  - exact (invocation_count EMA demo_state ["AAA"; "BBB"] [mkInterval "1d"]
             _ _ _ eq_refl eq_refl (demo_call_returns EMA) StatArb).
Defined.

Lemma print_follows_flag_witness :
  exists report,
    stored_report (call RSI demo_state).1 = Some (JDict report)
    /\ (call RSI demo_state).2.1
       = flat_map (fun ticker =>
           flat_map (fun interval =>
             pair_calls (get_frame (st_data demo_state) ticker interval))
           [mkInterval "1d"]) ["AAA"; "BBB"]
         ++ [Shown (JDict report) (strategy_title RSI)].
Proof.
  exact (print_follows_flag RSI demo_state ["AAA"; "BBB"] [mkInterval "1d"] true
           _ _ _ eq_refl eq_refl eq_refl (demo_call_returns RSI)).
Defined.

Lemma record_reads_own_frame_witness :
  exists report report2 record,
    stored_report (call EMA demo_state).1 = Some (JDict report)
    /\ stored_report
         (call EMA (with_data demo_state
                      (<["BBB_1d" := DFrame [7%Z]]> (st_data demo_state)))).1
       = Some (JDict report2)
    /\ record_at report "AAA" (mkInterval "1d") = Some record
    /\ record_at report2 "AAA" (mkInterval "1d") = Some record.
Proof.
  refine (record_reads_own_frame EMA "AAA" (mkInterval "1d")
            demo_state ["AAA"; "BBB"] [mkInterval "1d"] _ _ _
            (with_data demo_state
               (<["BBB_1d" := DFrame [7%Z]]> (st_data demo_state)))
            ["AAA"; "BBB"] [mkInterval "1d"]
            _
            (call EMA (with_data demo_state
                         (<["BBB_1d" := DFrame [7%Z]]> (st_data demo_state)))).2.1
            (ok_or (mkOutput [] ∅)
               (call EMA (with_data demo_state
                            (<["BBB_1d" := DFrame [7%Z]]> (st_data demo_state)))).2.2)
            eq_refl eq_refl eq_refl eq_refl _ _ _ _ eq_refl
            (demo_call_returns EMA) _).
  - set_solver.
  - set_solver.
  - set_solver.
  - set_solver.
  - reflexivity.
Defined.

Lemma later_run_ignores_earlier_witness :
  call RSI (call EMA demo_state).1 = call RSI demo_state.
Proof.
  refine (later_run_ignores_earlier EMA RSI demo_state
            ["AAA"; "BBB"] [mkInterval "1d"] _ _ _
            eq_refl eq_refl _ (demo_call_returns EMA)).
  intros ticker interval Ht Hi.
  apply list_elem_of_singleton in Hi as ->.
  repeat (apply elem_of_cons in Ht as [->|Ht]); [discriminate..|].
  now apply elem_of_nil in Ht.
Defined.

Lemma stored_record_contents_witness :
  exists report fields details tr mo me vo combined,
    stored_report (call RSI demo_state).1 = Some (JDict report)
    /\ record_at report "AAA" (mkInterval "1d") = Some (JDict fields)
    /\ run_adapter Trend (get_frame (st_data demo_state) "AAA" (mkInterval "1d")) = Ok tr
    /\ run_adapter Momentum (get_frame (st_data demo_state) "AAA" (mkInterval "1d")) = Ok mo
    /\ run_adapter MeanReversion (get_frame (st_data demo_state) "AAA" (mkInterval "1d")) = Ok me
    /\ run_adapter Volatility (get_frame (st_data demo_state) "AAA" (mkInterval "1d")) = Ok vo
    /\ Fusion.weighted_signal_combination
         (labelled_signals RSI tr mo me vo) (strategy_weights RSI)
       = Ok combined
    /\ fields !! "signal"
       = Some (JStr (direction_name (consensus_signal combined)))
    /\ fields !! "confidence"
       = Some (JInt (py_round (float_mul (consensus_confidence combined)
                                 (Qc_of_Z 100))))
    /\ fields !! "strategy_signals" = Some (JDict details)
    /\ dom details = list_to_set (label_adapters RSI).*1
    /\ forall label a, (label, a) ∈ label_adapters RSI ->
         exists s detail,
           run_adapter a (get_frame (st_data demo_state) "AAA" (mkInterval "1d"))
           = Ok s
           /\ (label, s) ∈ labelled_signals RSI tr mo me vo
           /\ details !! label = Some (JDict detail)
           /\ dom detail = ({["signal"; "confidence"; "metrics"]} : gset string)
           /\ detail !! "signal" = Some (JStr (direction_name (signal s)))
           /\ detail !! "confidence"
              = Some (JInt (py_round (float_mul (confidence s) (Qc_of_Z 100))))
           /\ detail !! "metrics" = Some (normalize_pandas (metrics s)).
Proof.
  refine (stored_record_contents RSI demo_state ["AAA"; "BBB"] [mkInterval "1d"]
            _ _ _ "AAA" (mkInterval "1d") eq_refl eq_refl
            (demo_call_returns RSI) _ _); set_solver.
Defined.
